(** * uModbus: the PDU layer ([umodbus/_functions/__init__.py])

    A shallow embedding of the response dispatcher
    [create_function_from_response_pdu], of the classes [ReadCoils],
    [ReadDiscreteInputs], [ReadHoldingRegisters] and [ReadInputRegisters],
    and of the fragments of Python's [struct] and [str.format] they call.

    Conventions.
    - [bytes] objects are [list byte]; a slice [b[i:j]] is [slice i j b].
    - Python integers are [Z]; [//] and [%] with a positive divisor are
      [Z.div] and [Z.modulo] (both round towards minus infinity).
    - A call either returns a value or raises: [PyResult A].
    - The quantity and the other arguments passed along with a PDU are
      integers.
    - Instances carry an attribute dictionary ([gmap string Value]); an
      attribute that is absent from it is looked up on the class.
    - The module is read with Python 3 semantics: a function defined in a
      class body without [@staticmethod] and fetched from the class is a
      plain function, and [/] is true division. *)

From Stdlib Require Import ZArith Lia Bool Ascii String Strings.Byte.
From stdpp Require Import base option list strings gmap.

Local Open Scope string_scope.
Local Open Scope Z_scope.
Local Open Scope list_scope.

(** ** Exceptions *)

(** Modelled from the spec: the classes of [umodbus.exceptions], which is
    imported by the source but is not part of it.  The spec (4.1) names ten
    kinds for the standard exception codes and one generic kind for unknown
    codes.  [IllegalDataValue] is the class the source imports under the
    name [IllegalDataValueError]. *)
Inductive ErrorKind :=
| IllegalFunction
| IllegalDataAddress
| IllegalDataValue
| ServerDeviceFailure
| Acknowledge
| ServerDeviceBusy
| NegativeAcknowledge
| MemoryParityError
| GatewayPathUnavailable
| GatewayTargetFailedToRespond
| UnknownDeviceException.

(** What a call can raise: a Modbus error class, or one of the built-in
    exceptions of the interpreter and of [struct]. *)
Inductive Exc :=
| ModbusError (k : ErrorKind)
| StructError        (* struct.error *)
| KeyError
| IndexError
| TypeError
| ValueError
| AttributeError
| NameError
| BareException.     (* [raise Exception] *)

Definition IllegalDataValueError : Exc := ModbusError IllegalDataValue.

Inductive PyResult (A : Type) :=
| Ok (a : A)
| Raise (e : Exc).
Arguments Ok {A} a.
Arguments Raise {A} e.

#[global] Instance PyResult_ret : MRet PyResult := fun _ a => Ok a.
#[global] Instance PyResult_bind : MBind PyResult := fun _ _ f m =>
  match m with
  | Ok a => f a
  | Raise e => Raise e
  end.

#[global] Instance PyResult_fmap : FMap PyResult := fun _ _ f m =>
  match m with
  | Ok a => Ok (f a)
  | Raise e => Raise e
  end.

Definition is_ok {A} (r : PyResult A) : bool :=
  match r with Ok _ => true | Raise _ => false end.

(** ** Values and objects *)

Inductive Value :=
| VNone
| VInt (n : Z)
| VList (l : list Z).

Definition as_int (exc : Exc) (v : Value) : PyResult Z :=
  match v with
  | VInt n => Ok n
  | _ => Raise exc
  end.

Inductive Class :=
| ReadCoils
| ReadDiscreteInputs
| ReadHoldingRegisters
| ReadInputRegisters.

(** An instance of one of the classes with its [__dict__], or the empty
    tuple [()] that [ReadInputRegisters.create_from_response_pdu] binds to
    its local variable. *)
Inductive PyObj :=
| Instance (cls : Class) (dict : gmap string Value)
| EmptyTuple.

(** Function codes (source lines 54-76; only the registered ones are used). *)
Definition READ_COILS : Z := 1.
Definition READ_DISCRETE_INPUTS : Z := 2.
Definition READ_HOLDING_REGISTERS : Z := 3.
Definition READ_INPUT_REGISTERS : Z := 4.

(** Class attributes.  [ModbusFunction] sets [function_code = None]; every
    subclass overrides it, and [ReadCoils] adds four attributes that
    default to [None]. *)
Definition class_dict (c : Class) : gmap string Value :=
  match c with
  | ReadCoils =>
      <["function_code" := VInt READ_COILS]>
      (<["byte_count" := VNone]>
      (<["data" := VNone]>
      (<["starting_address" := VNone]>
      (<["_quantity" := VNone]> ∅))))
  | ReadDiscreteInputs => <["function_code" := VInt 2]> ∅
  | ReadHoldingRegisters => <["function_code" := VInt 3]> ∅
  | ReadInputRegisters => <["function_code" := VInt 4]> ∅
  end.

(** [cls()] : none of the classes defines [__init__]. *)
Definition new (c : Class) : PyObj := Instance c ∅.

(** [obj.name] for a data attribute: the instance dictionary, then the
    class.  The two properties of [ReadCoils], [quantity] and
    [request_pdu], are not read through this function but through
    [ReadCoils.quantity] and [ReadCoils.request_pdu] below; it is used at
    the names [_quantity], [starting_address], [byte_count], [data] and
    [function_code] only. *)
Definition getattr (o : PyObj) (name : string) : PyResult Value :=
  match o with
  | Instance c d =>
      match d !! name with
      | Some v => Ok v
      | None =>
          match class_dict c !! name with
          | Some v => Ok v
          | None => Raise AttributeError
          end
      end
  | EmptyTuple => Raise AttributeError
  end.

(** [obj.name = v] for a name that is not a property: instances accept any
    attribute, a tuple accepts none. *)
Definition setattr (o : PyObj) (name : string) (v : Value) : PyResult PyObj :=
  match o with
  | Instance c d => Ok (Instance c (<[name := v]> d))
  | EmptyTuple => Raise AttributeError
  end.

(** ** Bytes and [struct] *)

Definition byte_val (b : byte) : Z := Z.of_N (Byte.to_N b).

Definition byte_of_Z (v : Z) : byte :=
  match Byte.of_N (Z.to_N v) with
  | Some b => b
  | None => x00
  end.

(** [b[i:j]] for [0 <= i <= j]. *)
Definition slice {A} (i j : nat) (l : list A) : list A :=
  firstn (j - i) (skipn i l).

(** [b[i:]]. *)
Definition slice_from {A} (i : nat) (l : list A) : list A := skipn i l.

(** [s * n] on strings. *)
Definition str_mul (s : string) (n : Z) : string :=
  String.concat EmptyString (repeat s (Z.to_nat n)).

(** The format characters the module uses, all under the byte-order prefix
    [>]: [B] is one unsigned byte, [H] two bytes, most significant first. *)
Inductive FmtCode := fB | fH.

Fixpoint parse_codes (s : string) : option (list FmtCode) :=
  match s with
  | EmptyString => Some []
  | String c s' =>
      if Ascii.eqb c "B"%char then cons fB <$> parse_codes s'
      else if Ascii.eqb c "H"%char then cons fH <$> parse_codes s'
      else None
  end.

Definition parse_fmt (fmt : string) : option (list FmtCode) :=
  match fmt with
  | String c s' => if Ascii.eqb c ">"%char then parse_codes s' else None
  | EmptyString => None
  end.

Definition code_size (c : FmtCode) : nat :=
  match c with fB => 1 | fH => 2 end.

Definition calcsize (codes : list FmtCode) : nat :=
  foldr (fun c n => (code_size c + n)%nat) 0%nat codes.

Fixpoint unpack_codes (codes : list FmtCode) (buf : list byte) : list Z :=
  match codes, buf with
  | fB :: codes', b :: buf' => byte_val b :: unpack_codes codes' buf'
  | fH :: codes', hi :: lo :: buf' =>
      (256 * byte_val hi + byte_val lo) :: unpack_codes codes' buf'
  | _, _ => []
  end.

(** [struct.unpack(fmt, buf)]: the buffer must have exactly the size the
    format asks for. *)
Definition struct_unpack (fmt : string) (buf : list byte) : PyResult (list Z) :=
  match parse_fmt fmt with
  | None => Raise StructError
  | Some codes =>
      if Nat.eqb (length buf) (calcsize codes)
      then Ok (unpack_codes codes buf)
      else Raise StructError
  end.

Definition pack_code (c : FmtCode) (v : Z) : PyResult (list byte) :=
  match c with
  | fB =>
      if (0 <=? v) && (v <=? 255) then Ok [byte_of_Z v]
      else Raise StructError
  | fH =>
      if (0 <=? v) && (v <=? 65535)
      then Ok [byte_of_Z (v / 256); byte_of_Z (v mod 256)]
      else Raise StructError
  end.

Fixpoint pack_codes (codes : list FmtCode) (vs : list Value) : PyResult (list byte) :=
  match codes, vs with
  | [], [] => Ok []
  | c :: codes', v :: vs' =>
      n ← as_int StructError v;
      bs ← pack_code c n;
      rest ← pack_codes codes' vs';
      Ok (bs ++ rest)
  | _, _ => Raise StructError
  end.

(** [struct.pack(fmt, *vs)]. *)
Definition struct_pack (fmt : string) (vs : list Value) : PyResult (list byte) :=
  match parse_fmt fmt with
  | None => Raise StructError
  | Some codes => pack_codes codes vs
  end.

(** [t[0]] on the tuple [struct.unpack] returns. *)
Definition item0 (t : list Z) : PyResult Z :=
  match t with
  | v :: _ => Ok v
  | [] => Raise IndexError
  end.

(** [_, x = t]. *)
Definition second_of_pair (t : list Z) : PyResult Z :=
  match t with
  | [_; x] => Ok x
  | _ => Raise ValueError
  end.

(** ** [str.format] with the spec [0{padding}b], and [int] on characters *)

(** Binary digits of a positive number, most significant first. *)
Fixpoint bin_digits (p : positive) : list ascii :=
  match p with
  | xH => ["1"%char]
  | xO p' => bin_digits p' ++ ["0"%char]
  | xI p' => bin_digits p' ++ ["1"%char]
  end.

Definition bin (n : Z) : list ascii :=
  match n with
  | Z0 => ["0"%char]
  | Zpos p => bin_digits p
  | Zneg p => bin_digits p
  end.

(** ['{0:0{padding}b}'.format(value)]: [padding] is a minimum width; the
    sign, if any, comes first, then the zeros, then the digits.  A value
    with more digits than [padding] is printed in full. *)
Definition format_0b (padding : Z) (value : Z) : string :=
  let sign := if value <? 0 then ["-"%char] else [] in
  let digits := bin value in
  let zeros := repeat "0"%char (Z.to_nat padding - length sign - length digits) in
  string_of_list_ascii (sign ++ zeros ++ digits).

(** [int(c)] for a one-character string. *)
Definition int_of_char (c : ascii) : PyResult Z :=
  let n := Z.of_N (N_of_ascii c) in
  if (48 <=? n) && (n <=? 57) then Ok (n - 48) else Raise ValueError.

(** ** class ReadCoils *)

Module ReadCoils.

(** The getter of the property [quantity]. *)
Definition quantity (self : PyObj) : PyResult Value :=
  getattr self "_quantity".

(** The setter of the property [quantity] (source lines 171-183). *)
Definition quantity_setter (self : PyObj) (value : Z) : PyResult PyObj :=
  if negb ((1 <=? value) && (value <=? 2000))
  then Raise IllegalDataValueError
  else setattr self "_quantity" (VInt value).

Definition is_None (v : Value) : bool :=
  match v with VNone => true | _ => false end.

(** The property [request_pdu] (source lines 185-196). *)
Definition request_pdu (self : PyObj) : PyResult (list byte) :=
  a ← getattr self "starting_address";
  q ← quantity self;
  if is_None a || is_None q then Raise BareException
  else
    function_code ← getattr self "function_code";
    starting_address ← getattr self "starting_address";
    quantity ← quantity self;
    struct_pack ">BHH" [function_code; starting_address; quantity].

(** The body of the loop [for i, value in enumerate(bytes_)] (source
    lines 217-225); [i] starts at 0 and [data] at the empty list. *)
Fixpoint coil_status_loop (read_coils : PyObj) (i : Z) (bytes_ : list Z)
    (data : list Z) : PyResult (list Z) :=
  match bytes_ with
  | [] => Ok data
  | value :: rest =>
      q ← quantity read_coils ≫= as_int TypeError;
      let padding := if (q - 8 * i) / 8 >? 0 then 8 else q mod 8 in
      let fmt := format_0b padding value in
      bits ← mapM int_of_char (list_ascii_of_string fmt);
      coil_status_loop read_coils (i + 1) rest (data ++ rev bits)
  end.

(** [ReadCoils.create_from_response_pdu] (source lines 198-228). *)
Definition create_from_response_pdu (resp_pdu : list byte) (quantity : Z)
    : PyResult PyObj :=
  let read_coils := new ReadCoils in
  read_coils ← quantity_setter read_coils quantity;
  t ← struct_unpack ">B" (slice 1 2 resp_pdu);
  v ← item0 t;
  read_coils ← setattr read_coils "byte_count" (VInt v);
  byte_count ← getattr read_coils "byte_count" ≫= as_int TypeError;
  let fmt := ">" +:+ str_mul "B" byte_count in
  bytes_ ← struct_unpack fmt (slice_from 2 resp_pdu);
  data ← coil_status_loop read_coils 0 bytes_ [];
  setattr read_coils "data" (VList data).

End ReadCoils.

(** ** class ReadDiscreteInputs *)

Module ReadDiscreteInputs.

(** Source lines 234-241: the last statement reads the undefined name
    [byte]. *)
Definition create_from_response_pdu (pdu : list byte) : PyResult PyObj :=
  let read_discrete_inputs := new ReadDiscreteInputs in
  t ← struct_unpack ">BB" (slice 0 2 pdu);
  byte_count ← second_of_pair t;
  read_discrete_inputs ← setattr read_discrete_inputs "byte_count" (VInt byte_count);
  Raise NameError.

End ReadDiscreteInputs.

(** ** class ReadHoldingRegisters *)

Module ReadHoldingRegisters.

(** Source lines 247-256.  [int(x / 2)] truncates towards zero. *)
Definition create_from_response_pdu (pdu : list byte) : PyResult PyObj :=
  let read_holding_registers := new ReadHoldingRegisters in
  t ← struct_unpack ">BB" (slice 0 2 pdu);
  byte_count ← second_of_pair t;
  read_holding_registers ← setattr read_holding_registers "byte_count" (VInt byte_count);
  n ← getattr read_holding_registers "byte_count" ≫= as_int TypeError;
  let fmt := ">" +:+ str_mul "H" (Z.quot n 2) in
  regs ← struct_unpack fmt (slice_from 2 pdu);
  read_holding_registers ← setattr read_holding_registers "data" (VList regs);
  Ok read_holding_registers.

End ReadHoldingRegisters.

(** ** class ReadInputRegisters *)

Module ReadInputRegisters.

(** Source lines 262-271: the local variable is bound to the empty tuple
    [()], not to an instance. *)
Definition create_from_response_pdu (pdu : list byte) : PyResult PyObj :=
  let read_input_registers := EmptyTuple in
  t ← struct_unpack ">BB" (slice 0 2 pdu);
  byte_count ← second_of_pair t;
  read_input_registers ← setattr read_input_registers "byte_count" (VInt byte_count);
  n ← getattr read_input_registers "byte_count" ≫= as_int TypeError;
  let fmt := ">" +:+ str_mul "H" (Z.quot n 2) in
  regs ← struct_unpack fmt (slice_from 2 pdu);
  read_input_registers ← setattr read_input_registers "data" (VList regs);
  Ok read_input_registers.

End ReadInputRegisters.

(** ** The registry and the dispatcher *)

(** Source lines 274-283: three entries, the others are commented out. *)
Definition function_code_to_function_map : gmap Z Class :=
  <[READ_COILS := ReadCoils]>
  (<[READ_HOLDING_REGISTERS := ReadHoldingRegisters]>
  (<[READ_INPUT_REGISTERS := ReadInputRegisters]> ∅)).

(** Binding of the arguments [*args, **kwargs] to the parameters [names]
    of the callee that follow the PDU.  A positional argument without a
    parameter, a keyword that names no free parameter and a parameter
    without an argument are [TypeError]s. *)
Fixpoint bind_params (names : list string) (args : list Z)
    (kwargs : gmap string Z) : PyResult (list Z) :=
  match names, args with
  | [], [] => if decide (kwargs = ∅) then Ok [] else Raise TypeError
  | [], _ :: _ => Raise TypeError
  | n :: names', a :: args' =>
      match kwargs !! n with
      | Some _ => Raise TypeError
      | None => cons a <$> bind_params names' args' kwargs
      end
  | n :: names', [] =>
      match kwargs !! n with
      | Some v => cons v <$> bind_params names' [] (delete n kwargs)
      | None => Raise TypeError
      end
  end.

(** [cls.create_from_response_pdu(resp_pdu, *args, **kwargs)]: only
    [ReadCoils] takes a second parameter. *)
Definition call_create_from_response_pdu (cls : Class) (resp_pdu : list byte)
    (args : list Z) (kwargs : gmap string Z) : PyResult PyObj :=
  match cls with
  | ReadCoils =>
      ps ← bind_params ["quantity"] args kwargs;
      match ps with
      | [quantity] => ReadCoils.create_from_response_pdu resp_pdu quantity
      | _ => Raise TypeError
      end
  | ReadDiscreteInputs =>
      _ ← bind_params [] args kwargs;
      ReadDiscreteInputs.create_from_response_pdu resp_pdu
  | ReadHoldingRegisters =>
      _ ← bind_params [] args kwargs;
      ReadHoldingRegisters.create_from_response_pdu resp_pdu
  | ReadInputRegisters =>
      _ ← bind_params [] args kwargs;
      ReadInputRegisters.create_from_response_pdu resp_pdu
  end.

Section Dispatcher.

(** The table [umodbus.exceptions.error_code_to_exception_map], which the
    source imports: [exception_map code] is [None] when subscripting the
    table with [code] finds no entry. *)
Variable exception_map : Z -> option Exc.

(** [error_code_to_exception_map[code]] followed by [raise]. *)
Definition raise_mapped {A} (code : Z) : PyResult A :=
  match exception_map code with
  | Some e => Raise e
  | None => Raise KeyError
  end.

(** The code the dispatcher decides on (source line 87). *)
Definition dispatch_code (resp_pdu : list byte) : PyResult Z :=
  t ← struct_unpack ">B" (slice 1 2 resp_pdu);
  item0 t.

(** Source lines 79-93. *)
Definition create_function_from_response_pdu (resp_pdu : list byte)
    (args : list Z) (kwargs : gmap string Z) : PyResult PyObj :=
  function_code ← dispatch_code resp_pdu;
  match function_code_to_function_map !! function_code with
  | None => raise_mapped function_code
  | Some cls => call_create_from_response_pdu cls resp_pdu args kwargs
  end.

End Dispatcher.

(** Modelled from the spec: the Error Mapping Table of
    [umodbus.exceptions], absent from the source.  Spec 4.1: a fixed table
    for the standard exception codes 1-11 with the ten kinds it lists, in
    the order of the Modbus standard (which leaves 9 unassigned); unknown
    codes map to the generic unknown-device-exception kind and the lookup
    itself does not fail. *)
Definition lookup (exception_code : Z) : ErrorKind :=
  match exception_code with
  | 1 => IllegalFunction
  | 2 => IllegalDataAddress
  | 3 => IllegalDataValue
  | 4 => ServerDeviceFailure
  | 5 => Acknowledge
  | 6 => ServerDeviceBusy
  | 7 => NegativeAcknowledge
  | 8 => MemoryParityError
  | 10 => GatewayPathUnavailable
  | 11 => GatewayTargetFailedToRespond
  | _ => UnknownDeviceException
  end.

(** Modelled from the spec: subscripting the table always finds a class. *)
Definition error_code_to_exception_map (code : Z) : option Exc :=
  Some (ModbusError (lookup code)).

(** The outcome of a decoder reduced to what a caller observes: the list
    stored in the attribute [data], or the exception. *)
Definition data_of (r : PyResult PyObj) : PyResult Value :=
  o ← r; getattr o "data".

(** Python's truth value of an integer: the decoded coils are the integers
    0 and 1. *)
Definition truth (n : Z) : bool := negb (n =? 0).

(** Whether an exception is one of the classes the Error Mapping Table
    holds, that is a failure reported by the device. *)
Definition is_device_exception (e : Exc) : bool :=
  match e with
  | ModbusError _ => true
  | _ => false
  end.

(** ** Building a request *)

(** The statement [obj.quantity = value].  Only [ReadCoils] defines the
    property [quantity]; on an instance of another class the statement is
    an ordinary attribute assignment. *)
Definition assign_quantity (o : PyObj) (value : Z) : PyResult PyObj :=
  match o with
  | Instance ReadCoils _ => ReadCoils.quantity_setter o value
  | _ => setattr o "quantity" (VInt value)
  end.

(** The expression [obj.request_pdu].  Only [ReadCoils] defines it. *)
Definition get_request_pdu (o : PyObj) : PyResult (list byte) :=
  match o with
  | Instance ReadCoils _ => ReadCoils.request_pdu o
  | _ => Raise AttributeError
  end.

(** How a caller builds the request of class [cls]: instantiate, assign
    the two fields, read [request_pdu]. *)
Definition build_request (cls : Class) (starting_address quantity : Z)
    : PyResult (list byte) :=
  o ← setattr (new cls) "starting_address" (VInt starting_address);
  o ← assign_quantity o quantity;
  get_request_pdu o.

(** The decoded coils as the booleans the integers stand for. *)
Definition coils_of (r : PyResult PyObj) : PyResult (list bool) :=
  v ← data_of r;
  match v with
  | VList l => Ok (map truth l)
  | _ => Raise TypeError
  end.

(** ** Reference functions used in the statements *)

(** The binary digits of a positive number, least significant first. *)
Fixpoint pos_bits (p : positive) : list Z :=
  match p with
  | xH => [1]
  | xO p' => 0 :: pos_bits p'
  | xI p' => 1 :: pos_bits p'
  end.

Definition nat_bits (v : Z) : list Z :=
  match v with
  | Zpos p => pos_bits p
  | _ => [0]
  end.

(** The digits of [v], least significant first, filled with zeros up to
    [padding] digits. *)
Definition format_bits (padding value : Z) : list Z :=
  nat_bits value ++ repeat 0 (Z.to_nat padding - length (nat_bits value)).

(** The [k] low bits of [v]: position [j] holds bit [j]. *)
Definition low_bits (k : nat) (v : Z) : list Z :=
  map (fun j => Z.b2z (Z.testbit v (Z.of_nat j))) (seq 0 k).

(** All the bits of a payload: eight per byte, lowest bit first, bytes in
    order. *)
Definition payload_bits (payload : list byte) : list Z :=
  flat_map (fun b => low_bits 8 (byte_val b)) payload.

(** The registers of a payload: two bytes each, most significant first. *)
Fixpoint registers (payload : list byte) : list Z :=
  match payload with
  | hi :: lo :: rest => (256 * byte_val hi + byte_val lo) :: registers rest
  | _ => []
  end.

(** The width the loop of [ReadCoils.create_from_response_pdu] computes for
    the payload byte of index [i] (source lines 218-219). *)
Definition padding_at (q i : Z) : Z :=
  if (q - 8 * i) / 8 >? 0 then 8 else q mod 8.

(** What the loop appends for the payload values from index [i] on. *)
Fixpoint loop_bits (q i : Z) (values : list Z) : list Z :=
  match values with
  | [] => []
  | v :: rest => format_bits (padding_at q i) v ++ loop_bits q (i + 1) rest
  end.

(** * Properties *)

(** ** The monad and [struct] *)

Lemma bind_Ok {A B} (a : A) (f : A -> PyResult B) : (Ok a ≫= f) = f a.
Proof. reflexivity. Qed.

Lemma bind_Raise {A B} (e : Exc) (f : A -> PyResult B) : (Raise e ≫= f) = Raise e.
Proof. reflexivity. Qed.

(** Run the monad as far as the results at hand allow. *)
Ltac py_simpl :=
  repeat first
    [ rewrite bind_Ok
    | rewrite bind_Raise
    | progress (cbn [as_int item0 second_of_pair]) ].

Lemma mapM_Ok_app {A B} (f : A -> PyResult B) (l1 l2 : list A) (r1 r2 : list B) :
  mapM f l1 = Ok r1 -> mapM f l2 = Ok r2 -> mapM f (l1 ++ l2) = Ok (r1 ++ r2).
Proof.
  revert r1. induction l1 as [|x l1 IH]; intros r1 H1 H2; simpl in *.
  - injection H1 as <-. exact H2.
  - destruct (f x) as [y|e]; simpl in *; [|discriminate].
    destruct (mapM f l1) as [k|e]; simpl in *; [|discriminate].
    injection H1 as <-. rewrite (IH k eq_refl H2). reflexivity.
Qed.

Lemma str_mul_succ (c : ascii) (n : nat) :
  String.concat EmptyString (repeat (String c EmptyString) (S n)) =
  String c (String.concat EmptyString (repeat (String c EmptyString) n)).
Proof. destruct n; reflexivity. Qed.

Lemma parse_codes_mul_B (n : nat) :
  parse_codes (String.concat EmptyString (repeat "B" n)) = Some (repeat fB n).
Proof.
  induction n as [|n IH]; [reflexivity|].
  rewrite str_mul_succ. cbn [parse_codes repeat]. rewrite IH. reflexivity.
Qed.

Lemma parse_codes_mul_H (n : nat) :
  parse_codes (String.concat EmptyString (repeat "H" n)) = Some (repeat fH n).
Proof.
  induction n as [|n IH]; [reflexivity|].
  rewrite str_mul_succ. cbn [parse_codes repeat]. rewrite IH. reflexivity.
Qed.

Lemma parse_fmt_mul_B (n : Z) :
  parse_fmt (">" +:+ str_mul "B" n) = Some (repeat fB (Z.to_nat n)).
Proof. unfold str_mul. apply parse_codes_mul_B. Qed.

Lemma parse_fmt_mul_H (n : Z) :
  parse_fmt (">" +:+ str_mul "H" n) = Some (repeat fH (Z.to_nat n)).
Proof. unfold str_mul. apply parse_codes_mul_H. Qed.

Lemma calcsize_repeat (c : FmtCode) (n : nat) :
  calcsize (repeat c n) = (code_size c * n)%nat.
Proof. induction n as [|n IH]; simpl; [lia|]. rewrite IH. lia. Qed.

Lemma unpack_codes_repeat_B (buf : list byte) :
  unpack_codes (repeat fB (length buf)) buf = map byte_val buf.
Proof. induction buf as [|b buf IH]; simpl; [reflexivity|]. by rewrite IH. Qed.

(** [struct.unpack('>' + 'B' * n, buf)] succeeds exactly when [buf] has [n]
    bytes, and then returns their values. *)
Lemma struct_unpack_mul_B (n : Z) (buf : list byte) :
  0 <= n ->
  struct_unpack (">" +:+ str_mul "B" n) buf =
  if decide (Z.of_nat (length buf) = n) then Ok (map byte_val buf)
  else Raise StructError.
Proof.
  intros Hn. unfold struct_unpack. rewrite parse_fmt_mul_B, calcsize_repeat.
  simpl code_size. case_decide as Hlen.
  - replace (Z.to_nat n) with (length buf) by lia.
    rewrite Nat.mul_1_l, Nat.eqb_refl, unpack_codes_repeat_B. reflexivity.
  - destruct (Nat.eqb_spec (length buf) (1 * Z.to_nat n)); [lia|reflexivity].
Qed.

Lemma byte_val_range (b : byte) : 0 <= byte_val b < 256.
Proof. unfold byte_val. pose proof (Byte.to_N_bounded b). lia. Qed.

(** ** Binary formatting *)

Lemma mapM_bin_digits (p : positive) :
  mapM int_of_char (bin_digits p) = Ok (rev (pos_bits p)).
Proof.
  induction p as [p IH|p IH|]; simpl; [| |reflexivity];
    apply (mapM_Ok_app _ _ _ _ _ IH); reflexivity.
Qed.

Lemma mapM_repeat_zero (k : nat) :
  mapM int_of_char (repeat "0"%char k) = Ok (repeat 0 k).
Proof. induction k as [|k IH]; [reflexivity|]. simpl. rewrite IH. reflexivity. Qed.

Lemma length_bin_digits (p : positive) :
  length (bin_digits p) = length (pos_bits p).
Proof. induction p; simpl; rewrite ?length_app; simpl; lia. Qed.

Lemma length_bin (v : Z) : 0 <= v -> length (bin v) = length (nat_bits v).
Proof. destruct v; intros; [reflexivity|apply length_bin_digits|lia]. Qed.

Lemma rev_repeat_Z (x : Z) (k : nat) : rev (repeat x k) = repeat x k.
Proof.
  induction k as [|k IH]; [reflexivity|]. simpl. rewrite IH.
  clear IH. induction k as [|k IH]; [reflexivity|]. simpl. by rewrite IH.
Qed.

(** The list the loop appends for one byte: the characters of the
    formatted value, converted and reversed. *)
Lemma format_0b_digits (padding value : Z) :
  0 <= value ->
  mapM int_of_char (list_ascii_of_string (format_0b padding value)) =
  Ok (rev (format_bits padding value)).
Proof.
  intros Hv. unfold format_0b, format_bits.
  destruct (Z.ltb_spec value 0) as [|_]; [lia|].
  rewrite list_ascii_of_string_of_list_ascii, length_bin by assumption.
  simpl length. rewrite app_nil_l, Nat.sub_0_r, rev_app_distr, rev_repeat_Z.
  apply mapM_Ok_app; [apply mapM_repeat_zero|].
  destruct value as [|p|p]; [reflexivity|apply mapM_bin_digits|lia].
Qed.

Lemma low_bits_succ (k : nat) (v : Z) :
  low_bits (S k) v = Z.b2z (Z.odd v) :: low_bits k (Z.div2 v).
Proof.
  unfold low_bits. cbn [seq map]. rewrite <- seq_shift, map_map.
  change (Z.of_nat 0) with 0. rewrite Z.bit0_odd. f_equal.
  apply map_ext. intros j.
  rewrite Nat2Z.inj_succ, Z.div2_div, Z.div2_bits by lia. reflexivity.
Qed.

Lemma low_bits_zero (k : nat) : low_bits k 0 = repeat 0 k.
Proof.
  induction k as [|k IH]; [reflexivity|]. rewrite low_bits_succ.
  simpl. by rewrite IH.
Qed.

Lemma length_low_bits (k : nat) (v : Z) : length (low_bits k v) = k.
Proof. unfold low_bits. by rewrite length_map, length_seq. Qed.

Lemma firstn_low_bits (j k : nat) (v : Z) :
  (j <= k)%nat -> firstn j (low_bits k v) = low_bits j v.
Proof.
  intros Hjk. unfold low_bits. rewrite firstn_map, take_seq.
  by rewrite Nat.min_l.
Qed.

Lemma pos_bits_low (p : positive) (k : nat) :
  Zpos p < 2 ^ Z.of_nat k ->
  pos_bits p ++ repeat 0 (k - length (pos_bits p)) = low_bits k (Zpos p).
Proof.
  revert k. induction p as [p IH|p IH|]; intros k Hk.
  - destruct k as [|k]; [simpl in Hk; lia|].
    rewrite low_bits_succ. simpl. f_equal. apply IH.
    rewrite Nat2Z.inj_succ, Z.pow_succ_r in Hk by lia. lia.
  - destruct k as [|k]; [simpl in Hk; lia|].
    rewrite low_bits_succ. simpl. f_equal. apply IH.
    rewrite Nat2Z.inj_succ, Z.pow_succ_r in Hk by lia. lia.
  - destruct k as [|k]; [simpl in Hk; lia|].
    rewrite low_bits_succ. simpl. rewrite Nat.sub_0_r, low_bits_zero.
    reflexivity.
Qed.

(** When the value fits in [padding] bits, the appended list is exactly
    its [padding] low bits, lowest first. *)
Lemma format_bits_low (padding value : Z) :
  1 <= padding -> 0 <= value < 2 ^ padding ->
  format_bits padding value = low_bits (Z.to_nat padding) value.
Proof.
  intros Hp [Hv0 Hv]. unfold format_bits. destruct value as [|p|p]; [| |lia].
  - rewrite low_bits_zero. simpl.
    destruct (Z.to_nat padding) as [|k] eqn:E; [lia|]. simpl.
    by rewrite Nat.sub_0_r.
  - apply pos_bits_low. rewrite Z2Nat.id by lia. exact Hv.
Qed.

(** ** ReadCoils: the loop over the payload *)

Lemma coil_status_loop_step (rc : PyObj) (q i value : Z) (rest data : list Z) :
  ReadCoils.quantity rc = Ok (VInt q) -> 0 <= value ->
  ReadCoils.coil_status_loop rc i (value :: rest) data =
  ReadCoils.coil_status_loop rc (i + 1) rest
    (data ++ format_bits (if (q - 8 * i) / 8 >? 0 then 8 else q mod 8) value).
Proof.
  intros Hq Hv. cbn [ReadCoils.coil_status_loop]. rewrite Hq.
  py_simpl. rewrite format_0b_digits by assumption.
  py_simpl. rewrite rev_involutive. reflexivity.
Qed.

(** On a payload of exactly [ceil(q / 8)] bytes whose last byte has no bit
    set above the coils it carries, the loop appends the first [q] bits of
    the payload. *)
Lemma coil_status_loop_wf (rc : PyObj) (q : Z) (payload : list byte) :
  ReadCoils.quantity rc = Ok (VInt q) ->
  forall (i : Z) (data : list Z),
    0 < q - 8 * i ->
    Z.of_nat (length payload) = (q - 8 * i + 7) / 8 ->
    (forall b, last payload = Some b -> q mod 8 <> 0 ->
               byte_val b < 2 ^ (q mod 8)) ->
    ReadCoils.coil_status_loop rc i (map byte_val payload) data =
    Ok (data ++ firstn (Z.to_nat (q - 8 * i)) (payload_bits payload)).
Proof.
  intros Hq. induction payload as [|b payload IH]; intros i data Hpos Hlen Hlast.
  - exfalso. simpl in Hlen. Z.div_mod_to_equations. lia.
  - pose proof (byte_val_range b) as Hb.
    cbn [map]. rewrite (coil_status_loop_step _ q) by (assumption || lia).
    destruct payload as [|b' payload].
    + cbn [map ReadCoils.coil_status_loop payload_bits flat_map].
      rewrite app_nil_r. do 2 f_equal.
      assert (q - 8 * i <= 8) as Hle
        by (simpl in Hlen; Z.div_mod_to_equations; lia).
      destruct (Z.gtb_spec ((q - 8 * i) / 8) 0) as [Hfull|Hpart].
      * assert (q - 8 * i = 8) as -> by (Z.div_mod_to_equations; lia).
        rewrite format_bits_low by (simpl; lia).
        change (Z.to_nat 8) with 8%nat. by rewrite firstn_low_bits.
      * assert (q mod 8 = q - 8 * i) as Hmod
          by (Z.div_mod_to_equations; lia).
        rewrite Hmod in *.
        rewrite format_bits_low, firstn_low_bits; [reflexivity|lia|lia|].
        split; [lia|]. apply Hlast; [reflexivity|lia].
    + assert (8 < q - 8 * i) as Hmore
        by (cbn [length] in Hlen; Z.div_mod_to_equations; lia).
      destruct (Z.gtb_spec ((q - 8 * i) / 8) 0) as [_|Hno];
        [|exfalso; Z.div_mod_to_equations; lia].
      rewrite IH.
      * rewrite format_bits_low by (simpl; lia).
        change (Z.to_nat 8) with 8%nat.
        change (payload_bits (b :: b' :: payload))
          with (low_bits 8 (byte_val b) ++ payload_bits (b' :: payload)).
        rewrite firstn_app, length_low_bits, <- app_assoc.
        rewrite (firstn_all2 (low_bits 8 (byte_val b)))
          by (rewrite length_low_bits; lia).
        replace (Z.to_nat (q - 8 * i) - 8)%nat
          with (Z.to_nat (q - 8 * (i + 1))) by lia.
        reflexivity.
      * lia.
      * cbn [length] in Hlen |- *. Z.div_mod_to_equations. lia.
      * intros b0 Hb0. apply Hlast. exact Hb0.
Qed.

(** ** ReadCoils.create_from_response_pdu *)

Lemma quantity_setter_in_range (self : PyObj) (q : Z) :
  1 <= q <= 2000 ->
  ReadCoils.quantity_setter self q = setattr self "_quantity" (VInt q).
Proof.
  intros Hq. unfold ReadCoils.quantity_setter.
  destruct (Z.leb_spec 1 q); [|lia]. destruct (Z.leb_spec q 2000); [|lia].
  reflexivity.
Qed.

Lemma quantity_setter_out_of_range (self : PyObj) (q : Z) :
  ~ (1 <= q <= 2000) ->
  ReadCoils.quantity_setter self q = Raise IllegalDataValueError.
Proof.
  intros Hq. unfold ReadCoils.quantity_setter.
  destruct (Z.leb_spec 1 q); [|reflexivity].
  destruct (Z.leb_spec q 2000); [lia|reflexivity].
Qed.

(** The instance the decoder works on once the quantity and the byte count
    are stored. *)
Lemma read_coils_quantity (q n : Z) :
  ReadCoils.quantity
    (Instance ReadCoils (<["byte_count" := VInt n]> (<["_quantity" := VInt q]> ∅)))
  = Ok (VInt q).
Proof.
  unfold ReadCoils.quantity, getattr.
  rewrite lookup_insert_ne by discriminate. by rewrite lookup_insert_eq.
Qed.

(** With a quantity in range the decoder reduces to the size check of
    [struct.unpack] followed by the loop. *)
Lemma read_coils_create_eq (fc bc : byte) (payload : list byte) (q : Z) :
  1 <= q <= 2000 ->
  ReadCoils.create_from_response_pdu (fc :: bc :: payload) q =
  let read_coils :=
    Instance ReadCoils
      (<["byte_count" := VInt (byte_val bc)]> (<["_quantity" := VInt q]> ∅)) in
  if decide (Z.of_nat (length payload) = byte_val bc)
  then data ← ReadCoils.coil_status_loop read_coils 0 (map byte_val payload) [];
       setattr read_coils "data" (VList data)
  else Raise StructError.
Proof.
  intros Hq. unfold ReadCoils.create_from_response_pdu.
  rewrite quantity_setter_in_range by assumption.
  cbn [new setattr]. py_simpl.
  change (struct_unpack ">B" (slice 1 2 (fc :: bc :: payload)))
    with (Ok (A := list Z) [byte_val bc]).
  py_simpl. cbn [setattr]. py_simpl. unfold getattr at 1.
  rewrite lookup_insert_eq. py_simpl.
  change (slice_from 2 (fc :: bc :: payload)) with payload.
  rewrite struct_unpack_mul_B by apply byte_val_range.
  cbv zeta. case_decide; reflexivity.
Qed.

Lemma length_payload_bits (payload : list byte) :
  length (payload_bits payload) = (8 * length payload)%nat.
Proof.
  induction payload as [|b payload IH]; [reflexivity|].
  change (payload_bits (b :: payload))
    with (low_bits 8 (byte_val b) ++ payload_bits payload).
  rewrite length_app, length_low_bits, IH. simpl. lia.
Qed.

(** The decoder on a well-formed response: the [q] first bits of the
    payload. *)
Lemma read_coils_well_formed (fc bc : byte) (payload : list byte) (q : Z) :
  1 <= q <= 2000 ->
  byte_val bc = Z.of_nat (length payload) ->
  Z.of_nat (length payload) = (q + 7) / 8 ->
  (forall b, last payload = Some b -> q mod 8 <> 0 ->
             byte_val b < 2 ^ (q mod 8)) ->
  data_of (ReadCoils.create_from_response_pdu (fc :: bc :: payload) q) =
  Ok (VList (firstn (Z.to_nat q) (payload_bits payload))).
Proof.
  intros Hq Hbc Hlen Hlast. rewrite read_coils_create_eq by assumption.
  cbv zeta. rewrite decide_True by (symmetry; exact Hbc).
  rewrite (coil_status_loop_wf _ q); [| apply read_coils_quantity | lia | | ].
  - replace (q - 8 * 0) with q by lia. py_simpl. cbn [setattr app].
    unfold data_of. py_simpl. unfold getattr. by rewrite lookup_insert_eq.
  - replace (q - 8 * 0) with q by lia. exact Hlen.
  - exact Hlast.
Qed.

(** Which entry of the payload bits is which bit of which byte. *)
Lemma low_bits_lookup (k : nat) (v : Z) (r : nat) :
  (r < k)%nat ->
  low_bits k v !! r = Some (Z.b2z (Z.testbit v (Z.of_nat r))).
Proof.
  revert v r. induction k as [|k IH]; intros v r Hr; [lia|].
  rewrite low_bits_succ. destruct r as [|r].
  - rewrite lookup_cons. change (Z.of_nat 0) with 0.
    by rewrite Z.bit0_odd.
  - rewrite lookup_cons, IH by lia.
    by rewrite Nat2Z.inj_succ, Z.div2_div, Z.div2_bits by lia.
Qed.

Lemma payload_bits_lookup (payload : list byte) (k r : nat) (b : byte) :
  payload !! k = Some b -> (r < 8)%nat ->
  payload_bits payload !! (8 * k + r)%nat =
  Some (Z.b2z (Z.testbit (byte_val b) (Z.of_nat r))).
Proof.
  revert k. induction payload as [|b0 payload IH]; intros k Hk Hr;
    [discriminate|].
  change (payload_bits (b0 :: payload))
    with (low_bits 8 (byte_val b0) ++ payload_bits payload).
  destruct k as [|k].
  - injection Hk as ->. rewrite Nat.mul_0_r, Nat.add_0_l.
    rewrite lookup_app_l by (rewrite length_low_bits; lia).
    by apply low_bits_lookup.
  - rewrite lookup_app_r by (rewrite length_low_bits; lia).
    rewrite length_low_bits.
    replace (8 * S k + r - 8)%nat with (8 * k + r)%nat by lia.
    by apply IH.
Qed.

(** ** The register decoders *)

Lemma unpack_codes_repeat_H (n : nat) (buf : list byte) :
  length buf = (2 * n)%nat -> unpack_codes (repeat fH n) buf = registers buf.
Proof.
  revert buf. induction n as [|n IH]; intros buf Hlen.
  - destruct buf; [reflexivity|discriminate].
  - destruct buf as [|hi [|lo buf]]; simpl in Hlen; try lia.
    cbn [repeat unpack_codes registers]. rewrite IH by lia. reflexivity.
Qed.

(** [struct.unpack('>' + 'H' * n, buf)] succeeds exactly when [buf] has
    [2 * n] bytes, and then returns the registers. *)
Lemma struct_unpack_mul_H (n : Z) (buf : list byte) :
  0 <= n ->
  struct_unpack (">" +:+ str_mul "H" n) buf =
  if decide (Z.of_nat (length buf) = 2 * n) then Ok (registers buf)
  else Raise StructError.
Proof.
  intros Hn. unfold struct_unpack. rewrite parse_fmt_mul_H, calcsize_repeat.
  simpl code_size. case_decide as Hlen.
  - destruct (Nat.eqb_spec (length buf) (2 * Z.to_nat n)); [|lia].
    by rewrite unpack_codes_repeat_H.
  - destruct (Nat.eqb_spec (length buf) (2 * Z.to_nat n)); [lia|reflexivity].
Qed.

Lemma read_holding_registers_create_eq (fc bc : byte) (payload : list byte) :
  ReadHoldingRegisters.create_from_response_pdu (fc :: bc :: payload) =
  if decide (Z.of_nat (length payload) = 2 * (byte_val bc / 2))
  then Ok (Instance ReadHoldingRegisters
             (<["data" := VList (registers payload)]>
                (<["byte_count" := VInt (byte_val bc)]> ∅)))
  else Raise StructError.
Proof.
  pose proof (byte_val_range bc) as Hbc.
  unfold ReadHoldingRegisters.create_from_response_pdu.
  change (struct_unpack ">BB" (slice 0 2 (fc :: bc :: payload)))
    with (Ok (A := list Z) [byte_val fc; byte_val bc]).
  py_simpl. cbn [new setattr]. py_simpl. unfold getattr at 1.
  rewrite lookup_insert_eq. py_simpl.
  change (slice_from 2 (fc :: bc :: payload)) with payload.
  rewrite Z.quot_div_nonneg by lia.
  rewrite struct_unpack_mul_H by (apply Z.div_pos; lia).
  case_decide; reflexivity.
Qed.

(** A well-formed register response: the byte count is the length of the
    payload and is even. *)
Lemma read_holding_registers_well_formed (fc bc : byte) (payload : list byte) :
  byte_val bc = Z.of_nat (length payload) ->
  Z.even (byte_val bc) = true ->
  data_of (ReadHoldingRegisters.create_from_response_pdu (fc :: bc :: payload))
  = Ok (VList (registers payload)).
Proof.
  intros Hlen Heven. rewrite read_holding_registers_create_eq.
  apply Z.even_spec in Heven as [k Hk].
  rewrite decide_True by (Z.div_mod_to_equations; lia).
  unfold data_of. py_simpl. unfold getattr. by rewrite lookup_insert_eq.
Qed.

(** [ReadInputRegisters.create_from_response_pdu] returns for no PDU: the
    first attribute assignment is on a tuple. *)
Lemma read_input_registers_raises (fc bc : byte) (payload : list byte) :
  ReadInputRegisters.create_from_response_pdu (fc :: bc :: payload) =
  Raise AttributeError.
Proof. reflexivity. Qed.

Lemma read_input_registers_never_returns (pdu : list byte) :
  is_ok (ReadInputRegisters.create_from_response_pdu pdu) = false.
Proof. destruct pdu as [|fc [|bc payload]]; reflexivity. Qed.

(** ** The dispatcher *)

Lemma dispatch_code_second_byte (b0 b1 : byte) (rest : list byte) :
  dispatch_code (b0 :: b1 :: rest) = Ok (byte_val b1).
Proof. reflexivity. Qed.

Lemma dispatch_code_short (pdu : list byte) :
  (length pdu < 2)%nat -> dispatch_code pdu = Raise StructError.
Proof. destruct pdu as [|b0 [|b1 rest]]; simpl; intros; [reflexivity..|lia]. Qed.

Lemma registry_lookup (fc : Z) :
  function_code_to_function_map !! fc =
  if decide (fc = 1) then Some ReadCoils
  else if decide (fc = 3) then Some ReadHoldingRegisters
  else if decide (fc = 4) then Some ReadInputRegisters
  else None.
Proof.
  unfold function_code_to_function_map, READ_COILS, READ_HOLDING_REGISTERS,
    READ_INPUT_REGISTERS.
  repeat case_decide; subst; simplify_map_eq; reflexivity.
Qed.

(** The branch of the dispatcher for a code without a registered class. *)
Lemma dispatch_unregistered (tbl : Z -> option Exc) (resp_pdu : list byte)
    (args : list Z) (kwargs : gmap string Z) (code : Z) :
  dispatch_code resp_pdu = Ok code ->
  function_code_to_function_map !! code = None ->
  create_function_from_response_pdu tbl resp_pdu args kwargs =
  raise_mapped tbl code.
Proof.
  intros Hcode Hnone. unfold create_function_from_response_pdu.
  rewrite Hcode. py_simpl. by rewrite Hnone.
Qed.

Lemma registry_lookup_None (code : Z) :
  code <> 1 -> code <> 3 -> code <> 4 ->
  function_code_to_function_map !! code = None.
Proof. intros. rewrite registry_lookup. by rewrite !decide_False. Qed.

(** No decoder looks at the first byte of the PDU. *)
Lemma decoder_ignores_first_byte (cls : Class) (b b' : byte) (rest : list byte)
    (args : list Z) (kwargs : gmap string Z) :
  call_create_from_response_pdu cls (b :: rest) args kwargs =
  call_create_from_response_pdu cls (b' :: rest) args kwargs.
Proof.
  destruct cls; unfold call_create_from_response_pdu;
    match goal with |- (?m ≫= _) = _ => destruct m as [ps|e] end;
    py_simpl; try reflexivity;
    destruct rest as [|bc payload]; reflexivity.
Qed.

(** Nor does the dispatcher: the outcome does not depend on the first
    byte. *)
Lemma dispatcher_ignores_first_byte (tbl : Z -> option Exc) (b b' : byte)
    (rest : list byte) (args : list Z) (kwargs : gmap string Z) :
  create_function_from_response_pdu tbl (b :: rest) args kwargs =
  create_function_from_response_pdu tbl (b' :: rest) args kwargs.
Proof.
  unfold create_function_from_response_pdu.
  destruct rest as [|b1 rest]; [reflexivity|].
  rewrite !dispatch_code_second_byte. py_simpl.
  destruct (function_code_to_function_map !! byte_val b1); [|reflexivity].
  apply decoder_ignores_first_byte.
Qed.

(** * The claims *)

(** ** C1: the byte the dispatcher decides on *)

(** C1 (code defect).  The dispatcher does not read its code from the first
    byte of the PDU but from the second, whatever the first byte is.  On
    the Read Holding Registers response [03 02 00 0a] (one register
    holding 10) the code it decides on is 2, the byte count: the call
    raises the exception the table maps to 2, whereas the decoder of
    function 3 returns [[10]] on the same bytes. *)
Theorem C1_dispatch_on_second_byte :
  (forall (b0 b1 : byte) (rest : list byte),
     dispatch_code (b0 :: b1 :: rest) = Ok (byte_val b1)) /\
  dispatch_code [x03; x02; x00; x0a] = Ok 2 /\
  create_function_from_response_pdu error_code_to_exception_map
    [x03; x02; x00; x0a] [] ∅ = Raise (ModbusError IllegalDataAddress) /\
  data_of (ReadHoldingRegisters.create_from_response_pdu [x03; x02; x00; x0a])
  = Ok (VList [10]).
Proof.
  split; [exact dispatch_code_second_byte|].
  repeat split; vm_compute; reflexivity.
Qed.

(** ** C2: exception responses *)

(** The example of the claim holds: [81 02] raises the class mapped to 2. *)
Lemma exception_response_81_02 :
  create_function_from_response_pdu error_code_to_exception_map
    [x81; x02] [] ∅ = Raise (ModbusError IllegalDataAddress).
Proof. vm_compute. reflexivity. Qed.

(** An exception response whose exception code is not itself a registered
    function code raises what the table holds for it. *)
Lemma exception_response_unregistered_code (tbl : Z -> option Exc)
    (f c : byte) (args : list Z) (kwargs : gmap string Z) :
  byte_val c <> 1 -> byte_val c <> 3 -> byte_val c <> 4 ->
  create_function_from_response_pdu tbl [f; c] args kwargs =
  raise_mapped tbl (byte_val c).
Proof.
  intros H1 H3 H4. apply dispatch_unregistered; [reflexivity|].
  by apply registry_lookup_None.
Qed.

(** C2 (code defect).  The exception response [81 01] (function 1 rejected
    with exception code 1, IllegalFunction) is not reported as a device
    exception: the dispatcher takes the exception code 1 for the function
    code of Read Coils and hands the two bytes to that decoder, which
    raises [struct.error] on the missing payload.  Codes 3 and 4 are taken
    for the register functions in the same way. *)
Theorem C2_exception_code_taken_for_function_code :
  lookup 1 = IllegalFunction /\
  create_function_from_response_pdu error_code_to_exception_map
    [x81; x01] [1] ∅ = Raise StructError /\
  create_function_from_response_pdu error_code_to_exception_map
    [x81; x03] [] ∅ = Raise StructError /\
  create_function_from_response_pdu error_code_to_exception_map
    [x81; x04] [] ∅ = Raise AttributeError.
Proof. repeat split; vm_compute; reflexivity. Qed.

(** ** C3: codes without a registered class *)

(** C3 (counterexample).  [02 02 00 00] is a Read Discrete Inputs response
    (function 2, two payload bytes); function 2 has no registered class
    and the PDU is no exception response.  The dispatcher raises the class
    the Error Mapping Table holds for 2, exactly as it does for the
    exception response [82 02]: the failure is a device exception, not an
    error distinct from one. *)
Lemma C3_counterexample :
  create_function_from_response_pdu error_code_to_exception_map
    [x02; x02; x00; x00] [] ∅ = Raise (ModbusError IllegalDataAddress) /\
  create_function_from_response_pdu error_code_to_exception_map
    [x82; x02] [] ∅ = Raise (ModbusError IllegalDataAddress) /\
  ~ (exists e,
       create_function_from_response_pdu error_code_to_exception_map
         [x02; x02; x00; x00] [] ∅ = Raise e /\
       is_device_exception e = false).
Proof.
  split; [vm_compute; reflexivity|]. split; [vm_compute; reflexivity|].
  intros [e [He Hd]]. vm_compute in He. injection He as <-. discriminate.
Qed.

(** C3 (amended).  When the code the dispatcher decides on has no
    registered class (it is none of 1, 3 and 4), the call raises what
    subscripting the Error Mapping Table with that code gives: the mapped
    exception class, or [KeyError] when the table has no entry.  There is
    no separate unknown-function-code error. *)
Theorem C3_unregistered_code_raises_mapped (tbl : Z -> option Exc)
    (resp_pdu : list byte) (args : list Z) (kwargs : gmap string Z) (code : Z) :
  dispatch_code resp_pdu = Ok code ->
  code <> 1 -> code <> 3 -> code <> 4 ->
  create_function_from_response_pdu tbl resp_pdu args kwargs =
  raise_mapped tbl code.
Proof.
  intros Hcode H1 H3 H4. apply dispatch_unregistered; [exact Hcode|].
  by apply registry_lookup_None.
Qed.

Lemma C3_witness :
  dispatch_code [x09; x09] = Ok 9 /\
  create_function_from_response_pdu error_code_to_exception_map
    [x09; x09] [] ∅ = raise_mapped error_code_to_exception_map 9.
Proof.
  split; [reflexivity|].
  apply (C3_unregistered_code_raises_mapped error_code_to_exception_map
           [x09; x09] [] ∅ 9); [reflexivity|lia|lia|lia].
Defined.

(** ** C4: exception codes outside the table *)

Lemma lookup_outside_table (code : Z) :
  ~ (1 <= code <= 11) -> lookup code = UnknownDeviceException.
Proof.
  intros Hcode. destruct code as [|p|p]; [reflexivity| |reflexivity].
  do 4 (try (destruct p as [p|p|]; try reflexivity; try lia)).
Qed.

(** C4.  For an exception code outside 1-11 the lookup of the Error
    Mapping Table does not fail but yields the generic unknown-device
    kind, and a PDU on which the dispatcher decides on such a code raises
    that kind. *)
Theorem C4_unknown_code_generic_kind (code : Z) (resp_pdu : list byte)
    (args : list Z) (kwargs : gmap string Z) :
  ~ (1 <= code <= 11) ->
  lookup code = UnknownDeviceException /\
  error_code_to_exception_map code = Some (ModbusError UnknownDeviceException) /\
  (dispatch_code resp_pdu = Ok code ->
   create_function_from_response_pdu error_code_to_exception_map
     resp_pdu args kwargs = Raise (ModbusError UnknownDeviceException)).
Proof.
  intros Hcode. pose proof (lookup_outside_table code Hcode) as Hl.
  split; [exact Hl|]. split.
  - unfold error_code_to_exception_map. by rewrite Hl.
  - intros Hd.
    rewrite (dispatch_unregistered _ _ _ _ code Hd)
      by (apply registry_lookup_None; lia).
    unfold raise_mapped, error_code_to_exception_map. by rewrite Hl.
Qed.

Lemma C4_witness :
  ~ (1 <= 12 <= 11) /\
  lookup 12 = UnknownDeviceException /\
  create_function_from_response_pdu error_code_to_exception_map
    [x81; x0c] [] ∅ = Raise (ModbusError UnknownDeviceException).
Proof.
  split; [lia|].
  destruct (C4_unknown_code_generic_kind 12 [x81; x0c] [] ∅) as (Hl & _ & Hd);
    [lia|].
  split; [exact Hl|]. apply Hd. reflexivity.
Defined.

(** ** C5: the length of the decoded coils *)

(** C5 (counterexample).  Decoding [01 01 ff] for 3 coils yields eight
    values, one per bit of the payload byte: the bits above the third are
    not discarded. *)
Lemma C5_counterexample :
  data_of (ReadCoils.create_from_response_pdu [x01; x01; xff] 3) =
  Ok (VList [1; 1; 1; 1; 1; 1; 1; 1]) /\
  ~ (exists l,
       data_of (ReadCoils.create_from_response_pdu [x01; x01; xff] 3) =
       Ok (VList l) /\ Z.of_nat (length l) = 3).
Proof.
  split; [vm_compute; reflexivity|].
  intros [l [Hl Hlen]]. vm_compute in Hl. injection Hl as <-. discriminate.
Qed.

(** A payload longer than the quantity needs is decoded in full as well. *)
Lemma read_coils_extra_byte :
  data_of (ReadCoils.create_from_response_pdu [x01; x02; x03; x00] 3) =
  Ok (VList [1; 1; 0; 0; 0; 0]).
Proof. vm_compute. reflexivity. Qed.

(** C5 (amended).  For a quantity [q] in 1..2000, a Read Coils response
    whose byte count and payload length both equal [ceil(q / 8)] and whose
    last payload byte has no bit set at or above position [q mod 8] (when
    [q] is not a multiple of 8) decodes to exactly [q] values, the first
    [q] bits of the payload. *)
Theorem C5_well_formed_length (fc bc : byte) (payload : list byte) (q : Z) :
  1 <= q <= 2000 ->
  byte_val bc = Z.of_nat (length payload) ->
  Z.of_nat (length payload) = (q + 7) / 8 ->
  (forall b, last payload = Some b -> q mod 8 <> 0 ->
             byte_val b < 2 ^ (q mod 8)) ->
  exists l,
    data_of (ReadCoils.create_from_response_pdu (fc :: bc :: payload) q) =
    Ok (VList l) /\
    l = firstn (Z.to_nat q) (payload_bits payload) /\
    Z.of_nat (length l) = q.
Proof.
  intros Hq Hbc Hlen Hlast. eexists. split; [|split; [reflexivity|]].
  - by apply read_coils_well_formed.
  - rewrite length_take, length_payload_bits.
    Z.div_mod_to_equations. lia.
Qed.

Lemma C5_witness :
  exists l,
    data_of (ReadCoils.create_from_response_pdu [x01; x01; x03] 3) =
    Ok (VList l) /\
    l = firstn 3 (payload_bits [x03]) /\
    Z.of_nat (length l) = 3.
Proof.
  apply (C5_well_formed_length x01 x01 [x03] 3);
    [lia | reflexivity | reflexivity |].
  intros b Hb _. injection Hb as <-. reflexivity.
Defined.

(** ** C6: the order of the bits *)

(** One payload byte decoded for eight coils: position [j] of the result
    is bit [j] of the byte. *)
Lemma read_coils_one_byte (fc b : byte) :
  data_of (ReadCoils.create_from_response_pdu [fc; x01; b] 8) =
  Ok (VList (low_bits 8 (byte_val b))).
Proof.
  rewrite (read_coils_well_formed fc x01 [b] 8);
    [| lia | reflexivity | reflexivity | intros ? _ Hm; by destruct Hm].
  change (payload_bits [b]) with (low_bits 8 (byte_val b) ++ []).
  rewrite app_nil_r. change (Z.to_nat 8) with 8%nat.
  by rewrite firstn_low_bits.
Qed.

(** C6.  The byte [03] decoded for 3 coils gives [1; 1; 0], that is
    [true; true; false]; for 2 coils it gives [1; 1], that is
    [true; true]; a byte decoded for 8 coils gives its bits from the
    lowest to the highest; and on every response that is well-formed for
    its quantity [q], whatever the number of payload bytes, the decoded
    list has [q] entries and entry [8 * k + r] (with [r < 8]) is bit [r]
    of payload byte [k]: within each byte the coils run from the lowest
    bit to the highest, and the bytes follow in order. *)
Theorem C6_bits_low_to_high :
  data_of (ReadCoils.create_from_response_pdu [x01; x01; x03] 3) =
    Ok (VList [1; 1; 0]) /\
  coils_of (ReadCoils.create_from_response_pdu [x01; x01; x03] 3) =
    Ok [true; true; false] /\
  data_of (ReadCoils.create_from_response_pdu [x01; x01; x03] 2) =
    Ok (VList [1; 1]) /\
  coils_of (ReadCoils.create_from_response_pdu [x01; x01; x03] 2) =
    Ok [true; true] /\
  (forall fc b : byte,
     data_of (ReadCoils.create_from_response_pdu [fc; x01; b] 8) =
     Ok (VList (map (fun j => Z.b2z (Z.testbit (byte_val b) (Z.of_nat j)))
                    (seq 0 8)))) /\
  (forall (fc bc : byte) (payload : list byte) (q : Z),
     1 <= q <= 2000 ->
     byte_val bc = Z.of_nat (length payload) ->
     Z.of_nat (length payload) = (q + 7) / 8 ->
     (forall b, last payload = Some b -> q mod 8 <> 0 ->
                byte_val b < 2 ^ (q mod 8)) ->
     exists l,
       data_of (ReadCoils.create_from_response_pdu (fc :: bc :: payload) q) =
       Ok (VList l) /\
       Z.of_nat (length l) = q /\
       forall (k r : nat) (b : byte),
         payload !! k = Some b -> (r < 8)%nat -> Z.of_nat (8 * k + r) < q ->
         l !! (8 * k + r)%nat =
         Some (Z.b2z (Z.testbit (byte_val b) (Z.of_nat r)))).
Proof.
  do 4 (split; [vm_compute; reflexivity|]).
  split; [intros fc b; apply read_coils_one_byte|].
  intros fc bc payload q Hq Hbc Hlen Hlast.
  exists (firstn (Z.to_nat q) (payload_bits payload)).
  split; [by apply read_coils_well_formed|]. split.
  - rewrite length_take, length_payload_bits. Z.div_mod_to_equations. lia.
  - intros k r b Hk Hr Hlt. rewrite lookup_take, decide_True by lia.
    by apply payload_bits_lookup.
Qed.

Lemma C6_witness :
  exists l,
    data_of (ReadCoils.create_from_response_pdu [x01; x02; xcd; x01] 10) =
    Ok (VList l) /\
    Z.of_nat (length l) = 10 /\
    forall (k r : nat) (b : byte),
      [xcd; x01] !! k = Some b -> (r < 8)%nat -> Z.of_nat (8 * k + r) < 10 ->
      l !! (8 * k + r)%nat =
      Some (Z.b2z (Z.testbit (byte_val b) (Z.of_nat r))).
Proof.
  destruct C6_bits_low_to_high as (_ & _ & _ & _ & _ & Hall).
  apply (Hall x01 x02 [xcd; x01] 10); [lia | reflexivity | reflexivity |].
  intros b Hb _. injection Hb as <-. reflexivity.
Defined.

(** ** C7: validation of the quantity of a request *)

(** A request for coils with both fields in range: five bytes. *)
Lemma read_coils_request_example :
  build_request ReadCoils 100 3 = Ok [x01; x00; x64; x00; x03].
Proof. vm_compute. reflexivity. Qed.

(** C7 (counterexample).  The register classes define neither the property
    [quantity] nor [request_pdu]: assigning the quantity 126 to a
    [ReadHoldingRegisters] instance succeeds, and building the request
    fails with [AttributeError], as it does for a quantity in 1..125. *)
Lemma C7_counterexample :
  is_ok (assign_quantity (new ReadHoldingRegisters) 126) = true /\
  build_request ReadHoldingRegisters 0 126 = Raise AttributeError /\
  build_request ReadHoldingRegisters 0 125 = Raise AttributeError /\
  build_request ReadHoldingRegisters 0 126 <> Raise IllegalDataValueError.
Proof. repeat split; try (vm_compute; reflexivity). discriminate. Qed.

(** C7 (amended).  For a quantity outside 1..2000 the setter of
    [ReadCoils.quantity] raises [IllegalDataValueError] whatever the state
    of the instance, so building a Read Coils request raises it and yields
    no bytes; and [request_pdu] on the instance the failed assignment left
    behind raises as well. *)
Theorem C7_read_coils_quantity_rejected (self : PyObj)
    (starting_address q : Z) :
  ~ (1 <= q <= 2000) ->
  ReadCoils.quantity_setter self q = Raise IllegalDataValueError /\
  build_request ReadCoils starting_address q = Raise IllegalDataValueError /\
  ReadCoils.request_pdu
    (Instance ReadCoils (<["starting_address" := VInt starting_address]> ∅))
  = Raise BareException.
Proof.
  intros Hq. split; [by apply quantity_setter_out_of_range|]. split.
  - unfold build_request. cbn [new setattr]. py_simpl.
    cbn [assign_quantity]. rewrite quantity_setter_out_of_range by assumption.
    reflexivity.
  - unfold ReadCoils.request_pdu, ReadCoils.quantity, getattr.
    rewrite lookup_insert_eq. py_simpl.
    rewrite lookup_insert_ne by discriminate. reflexivity.
Qed.

Lemma C7_witness :
  ~ (1 <= 2001 <= 2000) /\
  ReadCoils.quantity_setter (new ReadCoils) 2001 = Raise IllegalDataValueError /\
  build_request ReadCoils 100 2001 = Raise IllegalDataValueError.
Proof.
  split; [lia|].
  destruct (C7_read_coils_quantity_rejected (new ReadCoils) 100 2001)
    as (Hs & Hb & _); [lia|].
  split; [exact Hs|exact Hb].
Defined.

(** ** C8: the register decoders *)

(** C8 (code defect).  [ReadHoldingRegisters] decodes the payload
    [00 0a 00 14] to [10; 20]; [ReadInputRegisters] raises
    [AttributeError] on the same response, and on every PDU of two bytes
    or more, because it assigns the byte count to an attribute of the
    empty tuple. *)
Theorem C8_read_input_registers_raises :
  data_of (ReadHoldingRegisters.create_from_response_pdu
             [x03; x04; x00; x0a; x00; x14]) = Ok (VList [10; 20]) /\
  ReadInputRegisters.create_from_response_pdu
    [x04; x04; x00; x0a; x00; x14] = Raise AttributeError /\
  (forall (fc bc : byte) (payload : list byte),
     ReadInputRegisters.create_from_response_pdu (fc :: bc :: payload) =
     Raise AttributeError).
Proof.
  split; [vm_compute; reflexivity|]. split; [reflexivity|].
  exact read_input_registers_raises.
Qed.

(** ** C9: byte count and payload length *)

(** C9 (counterexample).  A Read Coils response whose byte count (5)
    differs from its payload length (1), decoded with the quantity 0, does
    not fail with [struct.error]: the quantity is validated first. *)
Lemma C9_counterexample :
  byte_val x05 <> Z.of_nat (length [x03]) /\
  ReadCoils.create_from_response_pdu [x01; x05; x03] 0 =
  Raise IllegalDataValueError.
Proof. split; [discriminate|vm_compute; reflexivity]. Qed.

(** The register decoder halves the byte count: an odd byte count followed
    by one byte less is decoded without any failure. *)
Lemma read_holding_registers_odd_byte_count :
  data_of (ReadHoldingRegisters.create_from_response_pdu [x03; x03; x00; x0a])
  = Ok (VList [10]).
Proof. vm_compute. reflexivity. Qed.

(** A PDU too short to hold a byte count raises [struct.error]. *)
Lemma truncated_pdu_struct_error (pdu : list byte) (q : Z) :
  (length pdu < 2)%nat ->
  (1 <= q <= 2000 ->
   ReadCoils.create_from_response_pdu pdu q = Raise StructError) /\
  ReadHoldingRegisters.create_from_response_pdu pdu = Raise StructError.
Proof.
  intros Hlen. destruct pdu as [|b0 [|b1 rest]]; simpl in Hlen; try lia;
    (split; [intros Hq|reflexivity]);
    unfold ReadCoils.create_from_response_pdu;
    rewrite quantity_setter_in_range by assumption; reflexivity.
Qed.

(** C9 (amended).  When the byte count of a response differs from the
    length of the payload that follows it, [ReadCoils] called with a
    quantity in 1..2000 raises [struct.error], and so does
    [ReadHoldingRegisters] when the byte count is even. *)
Theorem C9_byte_count_mismatch (fc bc : byte) (payload : list byte) (q : Z) :
  byte_val bc <> Z.of_nat (length payload) ->
  (1 <= q <= 2000 ->
   ReadCoils.create_from_response_pdu (fc :: bc :: payload) q =
   Raise StructError) /\
  (Z.even (byte_val bc) = true ->
   ReadHoldingRegisters.create_from_response_pdu (fc :: bc :: payload) =
   Raise StructError).
Proof.
  intros Hne. split.
  - intros Hq. rewrite read_coils_create_eq by assumption. cbv zeta.
    by rewrite decide_False by congruence.
  - intros Heven. rewrite read_holding_registers_create_eq.
    apply Z.even_spec in Heven as [k Hk].
    by rewrite decide_False by (Z.div_mod_to_equations; lia).
Qed.

Lemma C9_witness :
  byte_val x04 <> Z.of_nat (length [x03]) /\
  ReadCoils.create_from_response_pdu [x01; x04; x03] 1 = Raise StructError /\
  ReadHoldingRegisters.create_from_response_pdu [x03; x04; x03] =
  Raise StructError.
Proof.
  assert (byte_val x04 <> Z.of_nat (length [x03])) as Hne by discriminate.
  split; [exact Hne|].
  destruct (C9_byte_count_mismatch x01 x04 [x03] 1 Hne) as [Hc _].
  destruct (C9_byte_count_mismatch x03 x04 [x03] 1 Hne) as [_ Hr].
  split; [apply Hc; lia|apply Hr; reflexivity].
Defined.

(** ** C10: the quantity is validated before the PDU is read *)

(** C10.  [ReadCoils.create_from_response_pdu] stores its quantity through
    the setter of the property: for a quantity outside 1..2000 the setter
    raises [IllegalDataValueError], and so does the decoder on every PDU,
    whatever its bytes. *)
Theorem C10_quantity_validated_first (resp_pdu : list byte) (q : Z) :
  ~ (1 <= q <= 2000) ->
  ReadCoils.quantity_setter (new ReadCoils) q = Raise IllegalDataValueError /\
  ReadCoils.create_from_response_pdu resp_pdu q = Raise IllegalDataValueError.
Proof.
  intros Hq. split; [by apply quantity_setter_out_of_range|].
  unfold ReadCoils.create_from_response_pdu.
  rewrite quantity_setter_out_of_range by assumption. reflexivity.
Qed.

Lemma C10_witness :
  ~ (1 <= 0 <= 2000) /\
  ReadCoils.create_from_response_pdu [x01; x01; x03] 0 =
  Raise IllegalDataValueError.
Proof.
  split; [lia|]. apply (C10_quantity_validated_first [x01; x01; x03] 0). lia.
Defined.

(** * Further properties of the module *)

(** ** Requests: ReadCoils.quantity and ReadCoils.request_pdu *)

Lemma byte_val_of_Z (v : Z) : 0 <= v <= 255 -> byte_val (byte_of_Z v) = v.
Proof.
  intros Hv. unfold byte_val, byte_of_Z.
  destruct (Byte.of_N (Z.to_N v)) as [b|] eqn:E.
  - apply Byte.to_of_N in E. rewrite E. lia.
  - apply Byte.of_N_None_iff in E. lia.
Qed.

Lemma byte_val_inj (b b' : byte) : byte_val b = byte_val b' -> b = b'.
Proof.
  unfold byte_val. intros H. apply N2Z.inj in H.
  pose proof (Byte.of_to_N b) as Hb. rewrite H, Byte.of_to_N in Hb.
  by injection Hb.
Qed.

Lemma pack_code_H (v : Z) :
  0 <= v <= 65535 ->
  pack_code fH v = Ok [byte_of_Z (v / 256); byte_of_Z (v mod 256)].
Proof.
  intros Hv. unfold pack_code.
  destruct (Z.leb_spec 0 v); [|lia]. destruct (Z.leb_spec v 65535); [|lia].
  reflexivity.
Qed.

Lemma unpack_H (hi lo : Z) :
  0 <= hi <= 255 -> 0 <= lo <= 255 ->
  256 * byte_val (byte_of_Z hi) + byte_val (byte_of_Z lo) = 256 * hi + lo.
Proof. intros. by rewrite !byte_val_of_Z. Qed.

(** The attributes [request_pdu] reads, on an instance that has both
    fields. *)
Lemma request_pdu_eq (d : gmap string Value) (a q : Z) :
  d !! "function_code" = None ->
  d !! "starting_address" = Some (VInt a) ->
  d !! "_quantity" = Some (VInt q) ->
  ReadCoils.request_pdu (Instance ReadCoils d) =
  struct_pack ">BHH" [VInt READ_COILS; VInt a; VInt q].
Proof.
  intros Hf Ha Hq. unfold ReadCoils.request_pdu, ReadCoils.quantity, getattr.
  rewrite Hf, Ha, Hq. py_simpl. reflexivity.
Qed.

Lemma request_pdu_bytes (d : gmap string Value) (a q : Z) :
  d !! "function_code" = None ->
  d !! "starting_address" = Some (VInt a) ->
  d !! "_quantity" = Some (VInt q) ->
  0 <= a <= 65535 -> 1 <= q <= 2000 ->
  ReadCoils.request_pdu (Instance ReadCoils d) =
  Ok [x01; byte_of_Z (a / 256); byte_of_Z (a mod 256);
      byte_of_Z (q / 256); byte_of_Z (q mod 256)].
Proof.
  intros Hf Ha Hq Hra Hrq. rewrite (request_pdu_eq d a q) by assumption.
  unfold struct_pack. cbn [parse_fmt parse_codes Ascii.eqb Bool.eqb fmap
    option_fmap option_map pack_codes as_int].
  py_simpl. rewrite !pack_code_H by lia. reflexivity.
Qed.

(** X1.  On a [ReadCoils] instance whose starting address is in 0..65535
    and whose quantity is in 1..2000, [request_pdu] returns five bytes:
    the function code 1, then the address and the quantity, each on two
    bytes with the most significant first; unpacking them with the format
    of the request gives the three fields back. *)
Theorem request_pdu_round_trip (d : gmap string Value) (a q : Z) :
  d !! "function_code" = None ->
  d !! "starting_address" = Some (VInt a) ->
  d !! "_quantity" = Some (VInt q) ->
  0 <= a <= 65535 -> 1 <= q <= 2000 ->
  exists pdu,
    ReadCoils.request_pdu (Instance ReadCoils d) = Ok pdu /\
    pdu = [x01; byte_of_Z (a / 256); byte_of_Z (a mod 256);
           byte_of_Z (q / 256); byte_of_Z (q mod 256)] /\
    struct_unpack ">BHH" pdu = Ok [1; a; q].
Proof.
  intros Hf Ha Hq Hra Hrq. eexists. split; [|split; [reflexivity|]].
  - by apply request_pdu_bytes.
  - unfold struct_unpack. cbn [parse_fmt parse_codes Ascii.eqb Bool.eqb fmap
      option_fmap option_map length calcsize foldr code_size Nat.add Nat.eqb
      unpack_codes].
    rewrite !unpack_H by (Z.div_mod_to_equations; lia).
    do 2 f_equal. f_equal; [Z.div_mod_to_equations; lia|].
    f_equal. Z.div_mod_to_equations. lia.
Qed.

Lemma request_pdu_round_trip_witness :
  exists pdu,
    ReadCoils.request_pdu
      (Instance ReadCoils
         (<["_quantity" := VInt 3]> (<["starting_address" := VInt 100]> ∅)))
    = Ok pdu /\
    pdu = [x01; byte_of_Z (100 / 256); byte_of_Z (100 mod 256);
           byte_of_Z (3 / 256); byte_of_Z (3 mod 256)] /\
    struct_unpack ">BHH" pdu = Ok [1; 100; 3].
Proof.
  apply (request_pdu_round_trip
           (<["_quantity" := VInt 3]> (<["starting_address" := VInt 100]> ∅))
           100 3); [reflexivity|reflexivity|reflexivity|lia|lia].
Defined.

(** X2.  With a valid quantity but a starting address outside 0..65535,
    [request_pdu] raises [struct.error]: the address does not fit the two
    bytes of the format and no bytes are returned. *)
Theorem request_pdu_address_out_of_range (d : gmap string Value) (a q : Z) :
  d !! "function_code" = None ->
  d !! "starting_address" = Some (VInt a) ->
  d !! "_quantity" = Some (VInt q) ->
  ~ (0 <= a <= 65535) ->
  ReadCoils.request_pdu (Instance ReadCoils d) = Raise StructError.
Proof.
  intros Hf Ha Hq Hra. rewrite (request_pdu_eq d a q) by assumption.
  unfold struct_pack. cbn [parse_fmt parse_codes Ascii.eqb Bool.eqb fmap
    option_fmap option_map pack_codes as_int].
  py_simpl. unfold pack_code at 2.
  destruct (Z.leb_spec 0 a); [|reflexivity].
  destruct (Z.leb_spec a 65535); [lia|reflexivity].
Qed.

Lemma request_pdu_address_out_of_range_witness :
  ReadCoils.request_pdu
    (Instance ReadCoils
       (<["_quantity" := VInt 3]> (<["starting_address" := VInt 65536]> ∅)))
  = Raise StructError.
Proof.
  apply (request_pdu_address_out_of_range
           (<["_quantity" := VInt 3]> (<["starting_address" := VInt 65536]> ∅))
           65536 3); [reflexivity|reflexivity|reflexivity|lia].
Defined.

Lemma request_pdu_without_field (d : gmap string Value) :
  d !! "starting_address" = None \/ d !! "_quantity" = None ->
  ReadCoils.request_pdu (Instance ReadCoils d) = Raise BareException.
Proof.
  intros Hunset. unfold ReadCoils.request_pdu, ReadCoils.quantity, getattr.
  destruct (d !! "starting_address") as [a|] eqn:Ha;
    destruct (d !! "_quantity") as [q|] eqn:Hq.
  - destruct Hunset; discriminate.
  - py_simpl. change (class_dict ReadCoils !! "_quantity") with (Some VNone).
    py_simpl. cbn [ReadCoils.is_None]. by rewrite orb_true_r.
  - change (class_dict ReadCoils !! "starting_address") with (Some VNone).
    py_simpl. reflexivity.
  - change (class_dict ReadCoils !! "starting_address") with (Some VNone).
    py_simpl. reflexivity.
Qed.

(** X3.  On a [ReadCoils] instance on which the starting address or the
    quantity has not been assigned, [request_pdu] raises the bare
    [Exception] of line 193 whatever the other attributes hold; a fresh
    instance is such an instance. *)
Theorem request_pdu_unset_field (d : gmap string Value) :
  d !! "starting_address" = None \/ d !! "_quantity" = None ->
  ReadCoils.request_pdu (Instance ReadCoils d) = Raise BareException /\
  ReadCoils.request_pdu (new ReadCoils) = Raise BareException.
Proof.
  intros Hunset. split; [by apply request_pdu_without_field|].
  apply request_pdu_without_field. by left.
Qed.

Lemma request_pdu_unset_field_witness :
  ReadCoils.request_pdu
    (Instance ReadCoils (<["_quantity" := VInt 3]> ∅)) = Raise BareException /\
  ReadCoils.request_pdu (new ReadCoils) = Raise BareException.
Proof.
  apply (request_pdu_unset_field (<["_quantity" := VInt 3]> ∅)).
  left. reflexivity.
Defined.

(** X18.  A request is assembled from a fresh instance by assigning the
    starting address and the quantity in either order: with the address in
    0..65535 and the quantity in 1..2000 both orders give the same five
    bytes. *)
Theorem request_assembled_in_either_order (a q : Z) :
  0 <= a <= 65535 -> 1 <= q <= 2000 ->
  (o ← setattr (new ReadCoils) "starting_address" (VInt a);
   o ← ReadCoils.quantity_setter o q;
   ReadCoils.request_pdu o) =
  Ok [x01; byte_of_Z (a / 256); byte_of_Z (a mod 256);
      byte_of_Z (q / 256); byte_of_Z (q mod 256)] /\
  (o ← ReadCoils.quantity_setter (new ReadCoils) q;
   o ← setattr o "starting_address" (VInt a);
   ReadCoils.request_pdu o) =
  Ok [x01; byte_of_Z (a / 256); byte_of_Z (a mod 256);
      byte_of_Z (q / 256); byte_of_Z (q mod 256)].
Proof.
  intros Ha Hq. split.
  - cbn [new setattr]. py_simpl.
    rewrite quantity_setter_in_range by assumption. cbn [setattr]. py_simpl.
    apply request_pdu_bytes; try assumption.
    + rewrite !lookup_insert_ne by discriminate. reflexivity.
    + rewrite lookup_insert_ne by discriminate. by rewrite lookup_insert_eq.
    + by rewrite lookup_insert_eq.
  - rewrite quantity_setter_in_range by assumption.
    cbn [new setattr]. py_simpl. cbn [setattr]. py_simpl.
    apply request_pdu_bytes; try assumption.
    + rewrite !lookup_insert_ne by discriminate. reflexivity.
    + by rewrite lookup_insert_eq.
    + rewrite lookup_insert_ne by discriminate. by rewrite lookup_insert_eq.
Qed.

Lemma request_assembled_in_either_order_witness :
  (o ← setattr (new ReadCoils) "starting_address" (VInt 100);
   o ← ReadCoils.quantity_setter o 3;
   ReadCoils.request_pdu o) =
  Ok [x01; byte_of_Z (100 / 256); byte_of_Z (100 mod 256);
      byte_of_Z (3 / 256); byte_of_Z (3 mod 256)].
Proof.
  destruct (request_assembled_in_either_order 100 3) as [H _]; [lia|lia|].
  exact H.
Defined.

(** X4.  Assigning a quantity in 1..2000 to a [ReadCoils] instance
    succeeds and changes one entry of the instance dictionary only,
    [_quantity]: the property then reads that quantity back, every other
    entry of the dictionary is as before, and so are the attributes
    [starting_address], [byte_count], [data] and [function_code]. *)
Theorem quantity_set_then_get (d : gmap string Value) (q : Z) :
  1 <= q <= 2000 ->
  exists d',
    ReadCoils.quantity_setter (Instance ReadCoils d) q =
    Ok (Instance ReadCoils d') /\
    ReadCoils.quantity (Instance ReadCoils d') = Ok (VInt q) /\
    (forall name, name <> "_quantity" -> d' !! name = d !! name) /\
    getattr (Instance ReadCoils d') "starting_address" =
    getattr (Instance ReadCoils d) "starting_address" /\
    getattr (Instance ReadCoils d') "byte_count" =
    getattr (Instance ReadCoils d) "byte_count" /\
    getattr (Instance ReadCoils d') "data" =
    getattr (Instance ReadCoils d) "data" /\
    getattr (Instance ReadCoils d') "function_code" =
    getattr (Instance ReadCoils d) "function_code".
Proof.
  intros Hq. rewrite quantity_setter_in_range by assumption.
  exists (<["_quantity" := VInt q]> d). split; [reflexivity|]. split.
  - unfold ReadCoils.quantity, getattr. by rewrite lookup_insert_eq.
  - split; [intros name Hname; by rewrite lookup_insert_ne|].
    unfold getattr. by rewrite !lookup_insert_ne by discriminate.
Qed.

Lemma quantity_set_then_get_witness :
  exists d',
    ReadCoils.quantity_setter
      (Instance ReadCoils (<["starting_address" := VInt 100]> ∅)) 2000 =
    Ok (Instance ReadCoils d') /\
    ReadCoils.quantity (Instance ReadCoils d') = Ok (VInt 2000) /\
    d' !! "starting_address" = Some (VInt 100).
Proof.
  destruct (quantity_set_then_get (<["starting_address" := VInt 100]> ∅) 2000)
    as (d' & Hset & Hget & Hother & _); [lia|].
  exists d'. split; [exact Hset|]. split; [exact Hget|].
  rewrite Hother by discriminate. reflexivity.
Defined.

(** ** What the decoders and the dispatcher never look at *)

(** X5.  Neither the three decoders nor the dispatcher examine the first
    byte of the PDU: replacing it by any other byte changes no outcome. *)
Theorem first_byte_never_examined (b b' : byte) (rest : list byte) :
  (forall q, ReadCoils.create_from_response_pdu (b :: rest) q =
             ReadCoils.create_from_response_pdu (b' :: rest) q) /\
  ReadHoldingRegisters.create_from_response_pdu (b :: rest) =
  ReadHoldingRegisters.create_from_response_pdu (b' :: rest) /\
  ReadInputRegisters.create_from_response_pdu (b :: rest) =
  ReadInputRegisters.create_from_response_pdu (b' :: rest) /\
  (forall tbl args kwargs,
     create_function_from_response_pdu tbl (b :: rest) args kwargs =
     create_function_from_response_pdu tbl (b' :: rest) args kwargs).
Proof.
  split; [reflexivity|].
  split; [destruct rest as [|bc payload]; reflexivity|].
  split; [destruct rest as [|bc payload]; reflexivity|].
  intros tbl args kwargs. apply dispatcher_ignores_first_byte.
Qed.

(** X6.  A PDU of fewer than two bytes, the empty one included, makes the
    dispatcher and each decoder raise [struct.error] (the coil decoder
    once its quantity is accepted): no index error, no partial result. *)
Theorem short_pdu_struct_error (pdu : list byte) :
  (length pdu < 2)%nat ->
  (forall tbl args kwargs,
     create_function_from_response_pdu tbl pdu args kwargs = Raise StructError) /\
  (forall q, 1 <= q <= 2000 ->
             ReadCoils.create_from_response_pdu pdu q = Raise StructError) /\
  ReadDiscreteInputs.create_from_response_pdu pdu = Raise StructError /\
  ReadHoldingRegisters.create_from_response_pdu pdu = Raise StructError /\
  ReadInputRegisters.create_from_response_pdu pdu = Raise StructError.
Proof.
  intros Hlen. split.
  - intros tbl args kwargs. unfold create_function_from_response_pdu.
    by rewrite dispatch_code_short.
  - destruct pdu as [|b0 [|b1 rest]]; simpl in Hlen; try lia;
      (split; [intros q Hq|repeat split; reflexivity]);
      unfold ReadCoils.create_from_response_pdu;
      rewrite quantity_setter_in_range by assumption; reflexivity.
Qed.

Lemma short_pdu_struct_error_witness :
  create_function_from_response_pdu error_code_to_exception_map [] [] ∅ =
  Raise StructError /\
  ReadHoldingRegisters.create_from_response_pdu [] = Raise StructError.
Proof.
  destruct (short_pdu_struct_error []) as (Hd & _ & _ & Hh & _);
    [simpl; lia|].
  split; [apply Hd|exact Hh].
Defined.

(** X7.  [ReadDiscreteInputs.create_from_response_pdu] returns for no PDU:
    with two bytes or more it stores the byte count and then raises
    [NameError] on the undefined name [byte]; and since function code 2 is
    not registered, the dispatcher never calls it but raises what the
    table holds for 2. *)
Theorem read_discrete_inputs_never_returns :
  (forall pdu, is_ok (ReadDiscreteInputs.create_from_response_pdu pdu) = false) /\
  (forall fc bc payload,
     ReadDiscreteInputs.create_from_response_pdu (fc :: bc :: payload) =
     Raise NameError) /\
  (forall tbl b0 rest args kwargs,
     create_function_from_response_pdu tbl (b0 :: x02 :: rest) args kwargs =
     raise_mapped tbl 2).
Proof.
  split; [intros [|fc [|bc payload]]; reflexivity|].
  split; [reflexivity|].
  intros tbl b0 rest args kwargs.
  apply dispatch_unregistered; reflexivity.
Qed.

(** ** How the dispatcher passes its arguments on *)

Lemma dispatch_registered (tbl : Z -> option Exc) (b0 b1 : byte)
    (rest : list byte) (args : list Z) (kwargs : gmap string Z) (cls : Class) :
  function_code_to_function_map !! byte_val b1 = Some cls ->
  create_function_from_response_pdu tbl (b0 :: b1 :: rest) args kwargs =
  call_create_from_response_pdu cls (b0 :: b1 :: rest) args kwargs.
Proof.
  intros Hcls. unfold create_function_from_response_pdu.
  rewrite dispatch_code_second_byte. py_simpl. by rewrite Hcls.
Qed.

(** X8.  The dispatcher hands the PDU to the decoder registered for its
    second byte: to [ReadCoils] with the quantity when that byte is 1, to
    the register decoders without further argument when it is 3 or 4.
    The quantity may be given by position or by the keyword [quantity]. *)
Theorem dispatcher_delegates (tbl : Z -> option Exc) (b0 : byte)
    (rest : list byte) (q : Z) :
  create_function_from_response_pdu tbl (b0 :: x01 :: rest) [q] ∅ =
  ReadCoils.create_from_response_pdu (b0 :: x01 :: rest) q /\
  create_function_from_response_pdu tbl (b0 :: x01 :: rest) []
    {["quantity" := q]} =
  ReadCoils.create_from_response_pdu (b0 :: x01 :: rest) q /\
  create_function_from_response_pdu tbl (b0 :: x03 :: rest) [] ∅ =
  ReadHoldingRegisters.create_from_response_pdu (b0 :: x03 :: rest) /\
  create_function_from_response_pdu tbl (b0 :: x04 :: rest) [] ∅ =
  ReadInputRegisters.create_from_response_pdu (b0 :: x04 :: rest).
Proof.
  repeat split;
    (erewrite dispatch_registered; [|reflexivity]); reflexivity.
Qed.

(** X9.  The arguments must fit the decoder the second byte selects: a
    PDU whose second byte is 1 needs exactly one quantity, and one whose
    second byte is 3 or 4 accepts no positional argument; otherwise the
    call raises [TypeError] before any byte of the payload is read. *)
Theorem dispatcher_argument_mismatch (tbl : Z -> option Exc) (b0 : byte)
    (rest : list byte) :
  create_function_from_response_pdu tbl (b0 :: x01 :: rest) [] ∅ =
  Raise TypeError /\
  (forall q1 q2 args kwargs,
     create_function_from_response_pdu tbl (b0 :: x01 :: rest)
       (q1 :: q2 :: args) kwargs = Raise TypeError) /\
  (forall q args kwargs,
     create_function_from_response_pdu tbl (b0 :: x03 :: rest)
       (q :: args) kwargs = Raise TypeError) /\
  (forall q args kwargs,
     create_function_from_response_pdu tbl (b0 :: x04 :: rest)
       (q :: args) kwargs = Raise TypeError).
Proof.
  split; [erewrite dispatch_registered; [|reflexivity]; reflexivity|].
  split.
  - intros q1 q2 args kwargs. erewrite dispatch_registered; [|reflexivity].
    unfold call_create_from_response_pdu. cbn [bind_params].
    destruct (kwargs !! "quantity"); reflexivity.
  - split; intros q args kwargs;
      (erewrite dispatch_registered; [|reflexivity]); reflexivity.
Qed.

(** ** ReadCoils.create_from_response_pdu on arbitrary payloads *)

Lemma pos_bits_01 (p : positive) :
  Forall (fun x => x = 0 \/ x = 1) (pos_bits p).
Proof.
  induction p as [p IH|p IH|]; simpl.
  - constructor; [by right|exact IH].
  - constructor; [by left|exact IH].
  - constructor; [by right|constructor].
Qed.

Lemma format_bits_01 (padding value : Z) :
  Forall (fun x => x = 0 \/ x = 1) (format_bits padding value).
Proof.
  unfold format_bits. apply Forall_app. split.
  - destruct value; simpl; [|apply pos_bits_01|];
      (constructor; [by left|constructor]).
  - apply Forall_forall. intros x Hx.
    apply list_elem_of_In, repeat_spec in Hx. by left.
Qed.

Lemma length_pos_bits_bound (p : positive) (k : nat) :
  Zpos p < 2 ^ Z.of_nat k -> (length (pos_bits p) <= k)%nat.
Proof.
  revert k. induction p as [p IH|p IH|]; intros k Hk;
    (destruct k as [|k]; [simpl in Hk; lia|]);
    rewrite Nat2Z.inj_succ, Z.pow_succ_r in Hk by lia; simpl.
  - apply le_n_S, IH. lia.
  - apply le_n_S, IH. lia.
  - lia.
Qed.

Lemma length_nat_bits (v : Z) :
  0 <= v < 256 -> (1 <= length (nat_bits v) <= 8)%nat.
Proof.
  intros Hv. destruct v as [|p|p]; [simpl; lia| |lia].
  pose proof (length_pos_bits_bound p 8) as H8. simpl nat_bits.
  destruct p; simpl in *; lia.
Qed.

Lemma padding_at_range (q i : Z) : 0 <= padding_at q i <= 8.
Proof.
  unfold padding_at. destruct ((q - 8 * i) / 8 >? 0); [lia|].
  pose proof (Z.mod_pos_bound q 8). lia.
Qed.

Lemma length_format_bits (padding value : Z) :
  0 <= padding <= 8 -> 0 <= value < 256 ->
  (1 <= length (format_bits padding value) <= 8)%nat.
Proof.
  intros Hp Hv. unfold format_bits. rewrite length_app, repeat_length.
  pose proof (length_nat_bits value Hv). lia.
Qed.

(** The loop never fails on the values [struct.unpack] returns. *)
Lemma coil_status_loop_eq (rc : PyObj) (q : Z) :
  ReadCoils.quantity rc = Ok (VInt q) ->
  forall (values : list Z) (i : Z) (data : list Z),
    Forall (fun v => 0 <= v) values ->
    ReadCoils.coil_status_loop rc i values data =
    Ok (data ++ loop_bits q i values).
Proof.
  intros Hq. induction values as [|v values IH]; intros i data Hpos.
  - simpl. by rewrite app_nil_r.
  - inversion Hpos as [|? ? Hv Hrest]; subst.
    rewrite (coil_status_loop_step _ q) by assumption.
    rewrite IH by assumption. cbn [loop_bits]. unfold padding_at.
    by rewrite <- app_assoc.
Qed.

Lemma Forall_byte_val (payload : list byte) :
  Forall (fun v => 0 <= v < 256) (map byte_val payload).
Proof.
  induction payload; constructor; [apply byte_val_range|assumption].
Qed.

Lemma loop_bits_01 (q : Z) (values : list Z) (i : Z) :
  Forall (fun x => x = 0 \/ x = 1) (loop_bits q i values).
Proof.
  revert i. induction values as [|v values IH]; intros i; [constructor|].
  cbn [loop_bits]. apply Forall_app. split; [apply format_bits_01|apply IH].
Qed.

Lemma length_loop_bits (q : Z) (values : list Z) (i : Z) :
  Forall (fun v => 0 <= v < 256) values ->
  (length values <= length (loop_bits q i values) <= 8 * length values)%nat.
Proof.
  revert i. induction values as [|v values IH]; intros i Hv; [simpl; lia|].
  inversion Hv as [|? ? Hv0 Hrest]; subst. cbn [loop_bits length].
  rewrite length_app.
  pose proof (length_format_bits (padding_at q i) v (padding_at_range q i) Hv0).
  specialize (IH (i + 1) Hrest). lia.
Qed.

(** The outcome of the coil decoder for a quantity in range. *)
Lemma read_coils_outcome (fc bc : byte) (payload : list byte) (q : Z) :
  1 <= q <= 2000 ->
  ReadCoils.create_from_response_pdu (fc :: bc :: payload) q =
  if decide (Z.of_nat (length payload) = byte_val bc)
  then Ok (Instance ReadCoils
             (<["data" := VList (loop_bits q 0 (map byte_val payload))]>
                (<["byte_count" := VInt (byte_val bc)]>
                   (<["_quantity" := VInt q]> ∅))))
  else Raise StructError.
Proof.
  intros Hq. rewrite read_coils_create_eq by assumption. cbv zeta.
  case_decide; [|reflexivity].
  rewrite (coil_status_loop_eq _ q).
  - reflexivity.
  - apply read_coils_quantity.
  - eapply Forall_impl; [apply Forall_byte_val|]. intros v Hv. simpl in Hv. lia.
Qed.

(** X10.  For a quantity in 1..2000 the coil decoder returns exactly when
    the PDU has a byte count equal to the number of bytes that follow it;
    on every other PDU it raises [struct.error] and nothing else. *)
Theorem read_coils_returns_iff (pdu : list byte) (q : Z) :
  1 <= q <= 2000 ->
  (is_ok (ReadCoils.create_from_response_pdu pdu q) = true <->
   exists fc bc payload,
     pdu = fc :: bc :: payload /\ byte_val bc = Z.of_nat (length payload)) /\
  (is_ok (ReadCoils.create_from_response_pdu pdu q) = false ->
   ReadCoils.create_from_response_pdu pdu q = Raise StructError).
Proof.
  intros Hq. destruct pdu as [|fc [|bc payload]].
  - unfold ReadCoils.create_from_response_pdu.
    rewrite quantity_setter_in_range by assumption.
    split; [|reflexivity]. split; [discriminate|].
    intros (? & ? & ? & ? & ?). discriminate.
  - unfold ReadCoils.create_from_response_pdu.
    rewrite quantity_setter_in_range by assumption.
    split; [|reflexivity]. split; [discriminate|].
    intros (? & ? & ? & ? & ?). discriminate.
  - rewrite read_coils_outcome by assumption. case_decide as Hlen.
    + split; [|discriminate]. split; [|reflexivity].
      intros _. exists fc, bc, payload. by split.
    + split; [|reflexivity]. split; [discriminate|].
      intros (fc' & bc' & payload' & Heq & Hbc).
      injection Heq as -> -> ->. congruence.
Qed.

Lemma read_coils_returns_iff_witness :
  is_ok (ReadCoils.create_from_response_pdu [x01; x01; x03] 3) = true <->
  exists fc bc payload,
    [x01; x01; x03] = fc :: bc :: payload /\
    byte_val bc = Z.of_nat (length payload).
Proof.
  destruct (read_coils_returns_iff [x01; x01; x03] 3) as [H _]; [lia|].
  exact H.
Defined.

(** X11.  Whenever the coil decoder returns, whatever the bits of the
    payload, the list it stores holds only the integers 0 and 1, and it
    has at least one and at most eight entries per payload byte. *)
Theorem read_coils_data_invariant (fc bc : byte) (payload : list byte) (q : Z) :
  1 <= q <= 2000 ->
  byte_val bc = Z.of_nat (length payload) ->
  exists l,
    data_of (ReadCoils.create_from_response_pdu (fc :: bc :: payload) q) =
    Ok (VList l) /\
    Forall (fun x => x = 0 \/ x = 1) l /\
    (length payload <= length l <= 8 * length payload)%nat.
Proof.
  intros Hq Hbc. rewrite read_coils_outcome by assumption.
  rewrite decide_True by congruence. eexists. split; [|split].
  - unfold data_of. py_simpl. unfold getattr. by rewrite lookup_insert_eq.
  - apply loop_bits_01.
  - pose proof (length_loop_bits q (map byte_val payload) 0
                  (Forall_byte_val payload)) as H.
    by rewrite length_map in H.
Qed.

Lemma read_coils_data_invariant_witness :
  exists l,
    data_of (ReadCoils.create_from_response_pdu [x01; x01; xff] 3) =
    Ok (VList l) /\
    Forall (fun x => x = 0 \/ x = 1) l /\
    (length [xff] <= length l <= 8 * length [xff])%nat.
Proof.
  apply (read_coils_data_invariant x01 x01 [xff] 3); [lia|reflexivity].
Defined.

(** X12.  The instance the coil decoder returns holds the quantity it was
    called with, the byte count of the PDU and the function code 1, but no
    starting address: asking it for [request_pdu] raises the bare
    [Exception]. *)
Theorem read_coils_decoded_instance (fc bc : byte) (payload : list byte) (q : Z) :
  1 <= q <= 2000 ->
  byte_val bc = Z.of_nat (length payload) ->
  exists obj,
    ReadCoils.create_from_response_pdu (fc :: bc :: payload) q = Ok obj /\
    ReadCoils.quantity obj = Ok (VInt q) /\
    getattr obj "byte_count" = Ok (VInt (byte_val bc)) /\
    getattr obj "function_code" = Ok (VInt 1) /\
    getattr obj "starting_address" = Ok VNone /\
    ReadCoils.request_pdu obj = Raise BareException.
Proof.
  intros Hq Hbc. rewrite read_coils_outcome by assumption.
  rewrite decide_True by congruence. eexists. split; [reflexivity|].
  unfold ReadCoils.quantity, getattr.
  refine (conj _ (conj _ (conj _ (conj _ _)))).
  - rewrite !lookup_insert_ne by discriminate. by rewrite lookup_insert_eq.
  - rewrite lookup_insert_ne by discriminate. by rewrite lookup_insert_eq.
  - rewrite !lookup_insert_ne by discriminate. reflexivity.
  - rewrite !lookup_insert_ne by discriminate. reflexivity.
  - apply request_pdu_without_field. left.
    rewrite !lookup_insert_ne by discriminate. reflexivity.
Qed.

Lemma read_coils_decoded_instance_witness :
  exists obj,
    ReadCoils.create_from_response_pdu [x01; x01; x03] 3 = Ok obj /\
    ReadCoils.quantity obj = Ok (VInt 3) /\
    getattr obj "byte_count" = Ok (VInt (byte_val x01)) /\
    getattr obj "function_code" = Ok (VInt 1) /\
    getattr obj "starting_address" = Ok VNone /\
    ReadCoils.request_pdu obj = Raise BareException.
Proof.
  apply (read_coils_decoded_instance x01 x01 [x03] 3); [lia|reflexivity].
Defined.

(** ** Which coil is which bit *)

(** X13.  On a response that is well-formed for the quantity [q], coil
    number [8 * k + r] of the decoded list (with [r < 8], below [q]) is
    bit [r] of payload byte [k]: coils fill each byte from its lowest bit
    and the bytes in order. *)
Theorem read_coils_coil_is_payload_bit (fc bc : byte) (payload : list byte)
    (q : Z) (k r : nat) (b : byte) :
  1 <= q <= 2000 ->
  byte_val bc = Z.of_nat (length payload) ->
  Z.of_nat (length payload) = (q + 7) / 8 ->
  (forall b', last payload = Some b' -> q mod 8 <> 0 ->
              byte_val b' < 2 ^ (q mod 8)) ->
  payload !! k = Some b -> (r < 8)%nat -> Z.of_nat (8 * k + r) < q ->
  exists l,
    data_of (ReadCoils.create_from_response_pdu (fc :: bc :: payload) q) =
    Ok (VList l) /\
    l !! (8 * k + r)%nat = Some (Z.b2z (Z.testbit (byte_val b) (Z.of_nat r))).
Proof.
  intros Hq Hbc Hlen Hlast Hk Hr Hlt. eexists. split.
  - by apply read_coils_well_formed.
  - rewrite lookup_take. rewrite decide_True by lia.
    by apply payload_bits_lookup.
Qed.

Lemma read_coils_coil_is_payload_bit_witness :
  exists l,
    data_of (ReadCoils.create_from_response_pdu [x01; x02; xcd; x01] 10) =
    Ok (VList l) /\
    l !! (8 * 1 + 0)%nat = Some (Z.b2z (Z.testbit (byte_val x01) (Z.of_nat 0))).
Proof.
  apply (read_coils_coil_is_payload_bit x01 x02 [xcd; x01] 10 1 0 x01);
    [lia | reflexivity | reflexivity | | reflexivity | lia | simpl; lia].
  intros b' Hb' _. injection Hb' as <-. reflexivity.
Defined.

(** X14.  When the quantity is a multiple of 8 and the payload has one
    byte per eight coils, every bit of the payload is a coil: the decoded
    list is all the bits of the payload, with no condition on the last
    byte. *)
Theorem read_coils_whole_bytes (fc bc : byte) (payload : list byte) (q : Z) :
  1 <= q <= 2000 ->
  byte_val bc = Z.of_nat (length payload) ->
  q = 8 * Z.of_nat (length payload) ->
  data_of (ReadCoils.create_from_response_pdu (fc :: bc :: payload) q) =
  Ok (VList (payload_bits payload)).
Proof.
  intros Hq Hbc Hq8. rewrite read_coils_well_formed; try assumption.
  - rewrite take_ge; [reflexivity|]. rewrite length_payload_bits. lia.
  - Z.div_mod_to_equations. lia.
  - intros b' _ Hmod. exfalso. apply Hmod.
    rewrite Hq8, Z.mul_comm. apply Z.mod_mul. lia.
Qed.

Lemma read_coils_whole_bytes_witness :
  data_of (ReadCoils.create_from_response_pdu [x01; x02; xff; x80] 16) =
  Ok (VList (payload_bits [xff; x80])).
Proof.
  apply (read_coils_whole_bytes x01 x02 [xff; x80] 16);
    [lia|reflexivity|reflexivity].
Defined.

(** ** ReadHoldingRegisters.create_from_response_pdu *)

Lemma length_registers (n : nat) (payload : list byte) :
  length payload = (2 * n)%nat -> length (registers payload) = n.
Proof.
  revert payload. induction n as [|n IH]; intros payload Hlen.
  - by destruct payload.
  - destruct payload as [|hi [|lo payload]]; simpl in Hlen; try lia.
    cbn [registers length]. rewrite IH by lia. reflexivity.
Qed.

Lemma registers_lookup (payload : list byte) (k : nat) (hi lo : byte) :
  payload !! (2 * k)%nat = Some hi ->
  payload !! (2 * k + 1)%nat = Some lo ->
  registers payload !! k = Some (256 * byte_val hi + byte_val lo).
Proof.
  revert payload. induction k as [|k IH]; intros payload Hhi Hlo.
  - destruct payload as [|hi' [|lo' payload]]; simplify_eq/=. reflexivity.
  - replace (2 * S k)%nat with (S (S (2 * k))) in Hhi by lia.
    replace (2 * S k + 1)%nat with (S (S (2 * k + 1))) in Hlo by lia.
    destruct payload as [|hi' [|lo' payload]]; simplify_eq/=.
    by apply IH.
Qed.

Lemma registers_range (n : nat) (payload : list byte) :
  length payload = (2 * n)%nat ->
  Forall (fun r => 0 <= r <= 65535) (registers payload).
Proof.
  revert payload. induction n as [|n IH]; intros payload Hlen.
  - destruct payload; [constructor|discriminate].
  - destruct payload as [|hi [|lo payload]]; simpl in Hlen; try lia.
    cbn [registers]. constructor; [|apply IH; lia].
    pose proof (byte_val_range hi). pose proof (byte_val_range lo). lia.
Qed.

(** X15.  The holding-register decoder returns exactly when the PDU has a
    byte count and is followed by twice the half of it, rounded down, in
    bytes (so an odd byte count is accepted with one byte less); on every
    other PDU it raises [struct.error] and nothing else. *)
Theorem read_holding_registers_returns_iff (pdu : list byte) :
  (is_ok (ReadHoldingRegisters.create_from_response_pdu pdu) = true <->
   exists fc bc payload,
     pdu = fc :: bc :: payload /\
     Z.of_nat (length payload) = 2 * (byte_val bc / 2)) /\
  (is_ok (ReadHoldingRegisters.create_from_response_pdu pdu) = false ->
   ReadHoldingRegisters.create_from_response_pdu pdu = Raise StructError).
Proof.
  destruct pdu as [|fc [|bc payload]].
  - split; [|reflexivity]. split; [discriminate|].
    intros (? & ? & ? & ? & ?). discriminate.
  - split; [|reflexivity]. split; [discriminate|].
    intros (? & ? & ? & ? & ?). discriminate.
  - rewrite read_holding_registers_create_eq. case_decide as Hlen.
    + split; [|discriminate]. split; [|reflexivity].
      intros _. exists fc, bc, payload. by split.
    + split; [|reflexivity]. split; [discriminate|].
      intros (fc' & bc' & payload' & Heq & Hbc).
      injection Heq as -> -> ->. congruence.
Qed.

(** X16.  When the holding-register decoder returns, the instance holds
    the byte count of the PDU, the function code 3 and a list with half
    the byte count (rounded down) of registers, each in 0..65535; register
    [k] is [256 * payload[2k] + payload[2k+1]]. *)
Theorem read_holding_registers_decoded (fc bc : byte) (payload : list byte) :
  Z.of_nat (length payload) = 2 * (byte_val bc / 2) ->
  exists obj regs,
    ReadHoldingRegisters.create_from_response_pdu (fc :: bc :: payload) =
    Ok obj /\
    getattr obj "byte_count" = Ok (VInt (byte_val bc)) /\
    getattr obj "function_code" = Ok (VInt 3) /\
    getattr obj "data" = Ok (VList regs) /\
    Z.of_nat (length regs) = byte_val bc / 2 /\
    Forall (fun r => 0 <= r <= 65535) regs /\
    forall k hi lo,
      payload !! (2 * k)%nat = Some hi ->
      payload !! (2 * k + 1)%nat = Some lo ->
      regs !! k = Some (256 * byte_val hi + byte_val lo).
Proof.
  intros Hlen. pose proof (byte_val_range bc) as Hbc.
  assert (length payload = (2 * Z.to_nat (byte_val bc / 2))%nat) as Hn
    by (Z.div_mod_to_equations; lia).
  rewrite read_holding_registers_create_eq, decide_True by assumption.
  exists (Instance ReadHoldingRegisters
            (<["data" := VList (registers payload)]>
               (<["byte_count" := VInt (byte_val bc)]> ∅))),
         (registers payload).
  unfold getattr.
  refine (conj eq_refl (conj _ (conj _ (conj _ (conj _ (conj _ _)))))).
  - rewrite lookup_insert_ne by discriminate. by rewrite lookup_insert_eq.
  - rewrite !lookup_insert_ne by discriminate. reflexivity.
  - by rewrite lookup_insert_eq.
  - rewrite (length_registers _ _ Hn). Z.div_mod_to_equations. lia.
  - exact (registers_range _ _ Hn).
  - intros k hi lo. apply registers_lookup.
Qed.

Lemma read_holding_registers_decoded_witness :
  exists obj regs,
    ReadHoldingRegisters.create_from_response_pdu
      [x03; x04; x00; x0a; x00; x14] = Ok obj /\
    getattr obj "byte_count" = Ok (VInt (byte_val x04)) /\
    getattr obj "function_code" = Ok (VInt 3) /\
    getattr obj "data" = Ok (VList regs) /\
    Z.of_nat (length regs) = byte_val x04 / 2 /\
    Forall (fun r => 0 <= r <= 65535) regs /\
    forall k hi lo,
      [x00; x0a; x00; x14] !! (2 * k)%nat = Some hi ->
      [x00; x0a; x00; x14] !! (2 * k + 1)%nat = Some lo ->
      regs !! k = Some (256 * byte_val hi + byte_val lo).
Proof.
  apply (read_holding_registers_decoded x03 x04 [x00; x0a; x00; x14]).
  reflexivity.
Defined.

(** ** The PDUs on which the dispatcher returns *)

Lemma raise_mapped_not_ok {A} (tbl : Z -> option Exc) (code : Z) :
  is_ok (raise_mapped (A := A) tbl code) = false.
Proof. unfold raise_mapped. by destruct (tbl code). Qed.

Lemma is_ok_bind {A B} (m : PyResult A) (f : A -> PyResult B) :
  is_ok (m ≫= f) = true -> exists a, m = Ok a /\ is_ok (f a) = true.
Proof. destruct m as [a|e]; [eauto|discriminate]. Qed.

Lemma length_one {A} (l : list A) : length l = 1%nat -> exists x, l = [x].
Proof. destruct l as [|x [|]]; try discriminate. eauto. Qed.

Lemma length_two {A} (l : list A) : length l = 2%nat -> exists x y, l = [x; y].
Proof. destruct l as [|x [|y [|]]]; try discriminate. eauto. Qed.

(** X17.  Whatever the table and the arguments, the dispatcher returns an
    instance only on a PDU of three bytes whose second byte is 1 (decoded
    by [ReadCoils] as one payload byte) or on a PDU of four bytes whose
    second byte is 3 (decoded by [ReadHoldingRegisters] as one register);
    on every other PDU it raises. *)
Theorem dispatcher_returns_only_on (tbl : Z -> option Exc) (pdu : list byte)
    (args : list Z) (kwargs : gmap string Z) :
  is_ok (create_function_from_response_pdu tbl pdu args kwargs) = true ->
  (exists b0 b, pdu = [b0; x01; b]) \/
  (exists b0 hi lo, pdu = [b0; x03; hi; lo]).
Proof.
  intros Hok. destruct pdu as [|b0 [|b1 rest]]; try discriminate.
  unfold create_function_from_response_pdu in Hok.
  rewrite dispatch_code_second_byte in Hok. rewrite bind_Ok in Hok.
  rewrite registry_lookup in Hok.
  destruct (decide (byte_val b1 = 1)) as [H1|H1];
    [|destruct (decide (byte_val b1 = 3)) as [H3|H3];
      [|destruct (decide (byte_val b1 = 4)) as [H4|H4]]].
  - left. apply (byte_val_inj b1 x01) in H1 as ->.
    unfold call_create_from_response_pdu in Hok.
    apply is_ok_bind in Hok as (ps & _ & Hok).
    destruct ps as [|q [|]]; try discriminate.
    destruct (decide (1 <= q <= 2000)) as [Hq|Hq].
    + rewrite read_coils_outcome in Hok by assumption.
      case_decide as Hlen; [|discriminate].
      destruct (length_one rest) as [b ->]; [change (byte_val x01) with 1 in Hlen; lia|].
      eauto.
    + unfold ReadCoils.create_from_response_pdu in Hok.
      rewrite quantity_setter_out_of_range in Hok by assumption. discriminate.
  - right. apply (byte_val_inj b1 x03) in H3 as ->.
    unfold call_create_from_response_pdu in Hok.
    apply is_ok_bind in Hok as (ps & _ & Hok).
    rewrite read_holding_registers_create_eq in Hok.
    case_decide as Hlen; [|discriminate].
    destruct (length_two rest) as (hi & lo & ->);
      [change (byte_val x03 / 2) with 1 in Hlen; lia|].
    eauto.
  - unfold call_create_from_response_pdu in Hok.
    apply is_ok_bind in Hok as (ps & _ & Hok).
    pose proof (read_input_registers_never_returns (b0 :: b1 :: rest)).
    congruence.
  - by rewrite raise_mapped_not_ok in Hok.
Qed.

Lemma dispatcher_returns_only_on_witness :
  (exists b0 b, [x03; x03; x00; x0a] = [b0; x01; b]) \/
  (exists b0 hi lo, [x03; x03; x00; x0a] = [b0; x03; hi; lo]).
Proof.
  apply (dispatcher_returns_only_on error_code_to_exception_map
           [x03; x03; x00; x0a] [] ∅).
  vm_compute. reflexivity.
Defined.

(** Through the dispatcher a register response can carry one register
    only: on a PDU [b0 03 hi lo] it returns the single register
    [256 * hi + lo], and a regular Read Holding Registers response
    [03 02 hi lo] is never decoded, its byte count 2 being taken for an
    unregistered code. *)
Lemma dispatcher_single_register (tbl : Z -> option Exc) (b0 hi lo : byte) :
  data_of (create_function_from_response_pdu tbl [b0; x03; hi; lo] [] ∅) =
  Ok (VList [256 * byte_val hi + byte_val lo]) /\
  create_function_from_response_pdu tbl [x03; x02; hi; lo] [] ∅ =
  raise_mapped tbl 2.
Proof.
  split.
  - erewrite dispatch_registered; [|reflexivity].
    unfold call_create_from_response_pdu. cbn [bind_params].
    rewrite decide_True by reflexivity. rewrite bind_Ok.
    rewrite read_holding_registers_create_eq.
    rewrite decide_True by reflexivity.
    unfold data_of. rewrite bind_Ok. unfold getattr.
    by rewrite lookup_insert_eq.
  - apply dispatch_unregistered; reflexivity.
Qed.
